(** * Spam classifier service: text normalisation, classification and
      the training coordinator

    A shallow embedding of [spam_classifier.py] and [app.py].

    - Python [str] values are [string]s; a character is read as the code
      point of the same number (U+0000 .. U+00FF).
    - The statistical library (feature extraction, the two classifiers,
      the metrics) is an interface, [Sklearn], whose operations may raise.
    - Code that reads or writes shared objects (the global
      [training_status] dictionary, the global [classifier], [sys.stdout],
      [training_lock]) is written in a small free monad, [prog], whose
      actions are the individual reads and writes; [run] executes a
      program on its own and [exec] interleaves the threads of the server
      under a schedule. *)

From Stdlib Require Import List String Ascii Bool Arith ZArith QArith Lia.
From Stdlib Require Import Sorting.Sorted Numbers.DecimalString.
Import ListNotations.

Local Open Scope string_scope.
Local Open Scope list_scope.
Local Open Scope nat_scope.

(* ===================================================================== *)
(** * Text normalisation ([preprocess_text])                              *)
(* ===================================================================== *)

Module Text.

(** Code point of a character. *)
Definition code (c : ascii) : nat := nat_of_ascii c.

(** [A-Z] *)
Definition is_ascii_upper (c : ascii) : bool :=
  (65 <=? code c) && (code c <=? 90).

(** [a-z] *)
Definition is_ascii_lower (c : ascii) : bool :=
  (97 <=? code c) && (code c <=? 122).

(** The character class [a-zA-Z]. *)
Definition is_ascii_letter (c : ascii) : bool :=
  is_ascii_upper c || is_ascii_lower c.

(** Upper-case letters of the Latin-1 supplement: U+00C0..U+00DE without
    the multiplication sign U+00D7. *)
Definition is_latin1_upper (c : ascii) : bool :=
  (192 <=? code c) && (code c <=? 222) && negb (code c =? 215).

(** [str.lower] on one character: every cased character below U+0100 has
    its lower-case partner 32 code points above. *)
Definition lower_char (c : ascii) : ascii :=
  if is_ascii_upper c || is_latin1_upper c
  then ascii_of_nat (code c + 32)
  else c.

(** [text.lower()] *)
Fixpoint lower (s : string) : string :=
  match s with
  | EmptyString => EmptyString
  | String c s' => String (lower_char c) (lower s')
  end.

(** White space as [str.isspace], [str.split] and the regular expression
    class [\s] see it: TAB..CR, FS..US, SPACE, NEL and NBSP. *)
Definition isspace (c : ascii) : bool :=
  ((9 <=? code c) && (code c <=? 13))
  || ((28 <=? code c) && (code c <=? 32))
  || (code c =? 133) || (code c =? 160).

(** [re.sub(r'[^a-zA-Z\s]', '', text)] *)
Fixpoint strip_non_letters (s : string) : string :=
  match s with
  | EmptyString => EmptyString
  | String c s' =>
      if is_ascii_letter c || isspace c
      then String c (strip_non_letters s')
      else strip_non_letters s'
  end.

(** [text.split()]: the maximal runs of characters that are not white
    space, in order. *)
Fixpoint split (s : string) : list string :=
  match s with
  | EmptyString => []
  | String c s' =>
      if isspace c then split s'
      else
        match s' with
        | EmptyString => [String c EmptyString]
        | String d _ =>
            if isspace d then String c EmptyString :: split s'
            else
              match split s' with
              | w :: ws => String c w :: ws
              | [] => [String c EmptyString]
              end
        end
  end.

(** [sep.join(words)] *)
Definition join (sep : string) (words : list string) : string :=
  String.concat sep words.

(** [text.strip()] *)
Fixpoint lstrip (s : string) : string :=
  match s with
  | EmptyString => EmptyString
  | String c s' => if isspace c then lstrip s' else s
  end.

Fixpoint rstrip (s : string) : string :=
  match s with
  | EmptyString => EmptyString
  | String c s' =>
      match rstrip s' with
      | EmptyString => if isspace c then EmptyString else String c EmptyString
      | t => String c t
      end
  end.

Definition strip (s : string) : string := rstrip (lstrip s).

(** Membership in a Python collection of strings. *)
Definition mem (w : string) (ws : list string) : bool :=
  existsb (String.eqb w) ws.

(** The contraction rules of NLTK's word tokenizer that can fire on text
    made of the letters a-z and spaces.  Every other rule of the tokenizer
    and of the sentence splitter in front of it needs a quote, a period or
    another punctuation character to match. *)
Definition contractions : list (string * list string) :=
  [ ("cannot", ["can"; "not"]);
    ("gimme",  ["gim"; "me"]);
    ("gonna",  ["gon"; "na"]);
    ("gotta",  ["got"; "ta"]);
    ("lemme",  ["lem"; "me"]);
    ("wanna",  ["wan"; "na"]) ].

Fixpoint lookup (w : string) (tbl : list (string * list string))
  : option (list string) :=
  match tbl with
  | [] => None
  | (k, v) :: tbl' => if String.eqb w k then Some v else lookup w tbl'
  end.

Definition contract (w : string) : list string :=
  match lookup w contractions with
  | Some parts => parts
  | None => [w]
  end.

(** [word_tokenize(text)] of NLTK, on the text [preprocess_text] hands it:
    words of lower-case letters separated by single spaces.  The text is
    one sentence; the tokenizer pads it with spaces, rewrites each whole
    word of [contractions] into its two parts and splits on white space. *)
Definition word_tokenize (text : string) : list string :=
  flat_map contract (split text).

Section Preprocess.

(** [stopwords.words('english')]: NLTK's corpus data. *)
Variable stop_words : list string.

(** [preprocess_text(text)] *)
Definition preprocess_text (text : string) : string :=
  let text := lower text in
  let text := strip_non_letters text in
  let text := join " " (split text) in
  let word_tokens := word_tokenize text in
  let filtered_text :=
    filter (fun word => negb (mem word stop_words)) word_tokens in
  join " " filtered_text.

End Preprocess.

(** ** Shapes of text, to state what [preprocess_text] returns *)

(** Every character of [s] satisfies [p]. *)
Fixpoint all (p : ascii -> bool) (s : string) : bool :=
  match s with
  | EmptyString => true
  | String c s' => p c && all p s'
  end.

(** A word: at least one character, all of them in [a-z]. *)
Definition is_word (w : string) : bool :=
  negb (String.eqb w "") && all is_ascii_lower w.

(** A lower-case letter or the space character. *)
Definition is_lower_or_space (c : ascii) : bool :=
  is_ascii_lower c || Ascii.eqb c " ".

(** A run of characters as [split] returns them: not empty, free of white
    space, every character satisfying [p]. *)
Definition piece (p : ascii -> bool) (w : string) : Prop :=
  w <> "" /\ all (fun c => negb (isspace c) && p c) w = true.

Definition word (w : string) : Prop := piece is_ascii_lower w.

(** The tokens [preprocess_text] joins. *)
Definition tokens (stop_words : list string) (x : string) : list string :=
  filter (fun word => negb (mem word stop_words))
    (word_tokenize (join " " (split (strip_non_letters (lower x))))).

End Text.

(* ===================================================================== *)
(** * Python values shared by both modules                                *)
(* ===================================================================== *)

(** Exceptions.  [Exception msg] stands for every subclass of Python's
    [Exception] ([str(e)] is [msg]); [SystemExit], raised by [exit(1)], is
    not one of them and passes through [except Exception]. *)
Inductive exn : Type :=
| Exception (msg : string)
| SystemExit (code : Z).

(** The result of a call that may raise. *)
Inductive res (A : Type) : Type :=
| Ok (a : A)
| Raise (e : exn).
Arguments Ok {A} a.
Arguments Raise {A} e.

Definition res_bind {A B} (r : res A) (f : A -> res B) : res B :=
  match r with
  | Ok a => f a
  | Raise e => Raise e
  end.

Notation "'let*' x ':=' r 'in' k" := (res_bind r (fun x => k))
  (at level 10, x pattern, r at level 100, k at level 200).

(** The line feed, written as a backslash followed by n in Python. *)
Definition nl : string := String (ascii_of_nat 10) EmptyString.

(** [str(n)] for a non-negative integer. *)
Definition str_nat (n : nat) : string :=
  NilEmpty.string_of_uint (Nat.to_uint n).

(** [str(shape)] for a two-dimensional shape. *)
Definition str_shape (shape : nat * nat) : string :=
  "(" ++ str_nat (fst shape) ++ ", " ++ str_nat (snd shape) ++ ")".

(** [seq[0]] *)
Definition index0 {A} (seq : list A) : res A :=
  match seq with
  | x :: _ => Ok x
  | [] => Raise (Exception "index 0 is out of bounds for axis 0 with size 0")
  end.

(** [max(seq)] on numbers: the first of the greatest elements; floating
    point probabilities are read as rationals. *)
Fixpoint max_from (best : Q) (seq : list Q) : Q :=
  match seq with
  | [] => best
  | x :: seq' => max_from (if Qle_bool x best then best else x) seq'
  end.

Definition py_max (seq : list Q) : res Q :=
  match seq with
  | x :: seq' => Ok (max_from x seq')
  | [] => Raise (Exception "max() arg is an empty sequence")
  end.

(** Reading an attribute that may hold [None] in order to call [method]. *)
Definition not_none {A} (attr : option A) (method : string) : res A :=
  match attr with
  | Some a => Ok a
  | None =>
      Raise (Exception
               ("'NoneType' object has no attribute '" ++ method ++ "'"))
  end.

(** A row of the data frame read from the dataset file: the label, and the
    message, which is NaN ([None]) on a line without a second column. *)
Definition Row : Type := string * option string.

(** What [pd.read_csv('SMSSpamCollection', ...)] finds. *)
Inductive file : Type :=
| Missing
| Unreadable (msg : string)
| Rows (rows : list Row).

(** [df['label'].map({'ham': 0, 'spam': 1})]: any other label maps to NaN. *)
Definition map_label (label : string) : option Z :=
  if String.eqb label "ham" then Some 0%Z
  else if String.eqb label "spam" then Some 1%Z
  else None.

(** The dictionary returned by [classify_sms_real_time]. *)
Record PredictionResult : Type := {
  message : string;
  naive_bayes_result : string;
  logistic_regression_result : string;
  naive_bayes_confidence : Q;
  logistic_regression_confidence : Q
}.

(** The [training_status] dictionary of [app.py]. *)
Module Status.
Record t : Type := {
  is_training : bool;
  is_trained : bool;
  progress : Z;
  current_step : string;
  logs : list string;
  error : option string;
  metrics : list (string * Q)
}.

Definition initial : t :=
  {| is_training := false; is_trained := false; progress := 0;
     current_step := ""; logs := []; error := None; metrics := [] |}.

(** [training_status[key] = value], one definition per key. *)
Definition set_is_training (v : bool) (s : t) : t :=
  {| is_training := v; is_trained := is_trained s; progress := progress s;
     current_step := current_step s; logs := logs s; error := error s;
     metrics := metrics s |}.
Definition set_is_trained (v : bool) (s : t) : t :=
  {| is_training := is_training s; is_trained := v; progress := progress s;
     current_step := current_step s; logs := logs s; error := error s;
     metrics := metrics s |}.
Definition set_progress (v : Z) (s : t) : t :=
  {| is_training := is_training s; is_trained := is_trained s;
     progress := v; current_step := current_step s; logs := logs s;
     error := error s; metrics := metrics s |}.
Definition set_current_step (v : string) (s : t) : t :=
  {| is_training := is_training s; is_trained := is_trained s;
     progress := progress s; current_step := v; logs := logs s;
     error := error s; metrics := metrics s |}.
Definition set_logs (v : list string) (s : t) : t :=
  {| is_training := is_training s; is_trained := is_trained s;
     progress := progress s; current_step := current_step s; logs := v;
     error := error s; metrics := metrics s |}.
Definition set_error (v : option string) (s : t) : t :=
  {| is_training := is_training s; is_trained := is_trained s;
     progress := progress s; current_step := current_step s;
     logs := logs s; error := v; metrics := metrics s |}.
Definition set_metrics (v : list (string * Q)) (s : t) : t :=
  {| is_training := is_training s; is_trained := is_trained s;
     progress := progress s; current_step := current_step s;
     logs := logs s; error := error s; metrics := v |}.
(** [training_status['logs'].append(line)] *)
Definition append_log (line : string) (s : t) : t :=
  set_logs (logs s ++ [line]) s.
End Status.

(** The JSON body of a response. *)
Inductive body : Type :=
| Error (error : string)
| Message (message : string)
| Prediction (result : PredictionResult)
| Results (results : list PredictionResult)
| StatusJson (status : Status.t).

(** A Flask response: [jsonify(...)] and the HTTP status code. *)
Definition Response : Type := body * Z.

(** [sys.stdout]: the console, or a [LogCapture] object in front of the
    stream that was [sys.stdout] when it was created. *)
Inductive stream : Type :=
| Console
| Capture (id : nat) (original_stdout : stream).

(** The functions a thread can be started on. *)
Inductive target : Type :=
| train_model_thread_target.

(** The labels of a column after [map_label]. *)
Definition Labels : Type := list (option Z).

(** pandas, scikit-learn, NLTK's stop words and the two formatters the
    code relies on.  Estimator objects are values; fitting one returns the
    fitted value. *)
Record Library : Type := {
  Vectorizer : Type;
  Matrix : Type;
  NaiveBayes : Type;
  LogReg : Type;
  stop_words : list string;
  TfidfVectorizer : nat -> Vectorizer;
  fit_transform : Vectorizer -> list string -> res (Vectorizer * Matrix);
  transform : Vectorizer -> list string -> res Matrix;
  shape : Matrix -> nat * nat;
  train_test_split :
    Matrix -> Labels -> Q -> Z -> Labels ->
    res (Matrix * Matrix * Labels * Labels);
  MultinomialNB : NaiveBayes;
  nb_fit : NaiveBayes -> Matrix -> Labels -> res NaiveBayes;
  nb_predict : NaiveBayes -> Matrix -> res (list Z);
  nb_predict_proba : NaiveBayes -> Matrix -> res (list (list Q));
  LogisticRegression : Z -> nat -> LogReg;
  lr_fit : LogReg -> Matrix -> Labels -> res LogReg;
  lr_predict : LogReg -> Matrix -> res (list Z);
  lr_predict_proba : LogReg -> Matrix -> res (list (list Q));
  accuracy_score : Labels -> list Z -> res Q;
  precision_score : Labels -> list Z -> res Q;
  recall_score : Labels -> list Z -> res Q;
  value_counts : list string -> string;
  format_4f : Q -> string;
  format_exc : exn -> string
}.

(* ===================================================================== *)
(** * The classifier object and the programs over shared state           *)
(* ===================================================================== *)

Section Model.

Variable L : Library.

(** An instance of [class SpamClassifier]; [None] is Python's [None].
    The estimator held by an attribute is stored by value: fitting it in
    place is an update of the attribute. *)
Record SpamClassifier : Type := {
  vectorizer : option (Vectorizer L);
  nb_classifier : option (NaiveBayes L);
  lr_classifier : option (LogReg L);
  is_trained : bool
}.

(** [SpamClassifier.__init__] *)
Definition SpamClassifier_init : SpamClassifier :=
  {| vectorizer := None; nb_classifier := None; lr_classifier := None;
     is_trained := false |}.

(** [self.attribute = value] *)
Definition set_vectorizer (v : option (Vectorizer L)) (o : SpamClassifier) :=
  {| vectorizer := v; nb_classifier := nb_classifier o;
     lr_classifier := lr_classifier o; is_trained := is_trained o |}.
Definition set_nb_classifier (v : option (NaiveBayes L)) (o : SpamClassifier) :=
  {| vectorizer := vectorizer o; nb_classifier := v;
     lr_classifier := lr_classifier o; is_trained := is_trained o |}.
Definition set_lr_classifier (v : option (LogReg L)) (o : SpamClassifier) :=
  {| vectorizer := vectorizer o; nb_classifier := nb_classifier o;
     lr_classifier := v; is_trained := is_trained o |}.
Definition set_is_trained (v : bool) (o : SpamClassifier) :=
  {| vectorizer := vectorizer o; nb_classifier := nb_classifier o;
     lr_classifier := lr_classifier o; is_trained := v |}.

(** [preprocess_text] with NLTK's stop words. *)
Definition preprocess_text (text : string) : string :=
  Text.preprocess_text (stop_words L) text.

(** [classify_sms_real_time(message, vectorizer, nb_classifier,
    lr_classifier)] *)
Definition classify_sms_real_time
    (message : string)
    (vectorizer : option (Vectorizer L))
    (nb_classifier : option (NaiveBayes L))
    (lr_classifier : option (LogReg L)) : res PredictionResult :=
  let processed_msg := preprocess_text message in
  let* v := not_none vectorizer "transform" in
  let* msg_vector := transform L v [processed_msg] in
  let* nb := not_none nb_classifier "predict" in
  let* nb_preds := nb_predict L nb msg_vector in
  let* nb_pred := index0 nb_preds in
  let* nb_probs := nb_predict_proba L nb msg_vector in
  let* nb_prob := index0 nb_probs in
  let* lr := not_none lr_classifier "predict" in
  let* lr_preds := lr_predict L lr msg_vector in
  let* lr_pred := index0 lr_preds in
  let* lr_probs := lr_predict_proba L lr msg_vector in
  let* lr_prob := index0 lr_probs in
  let nb_result := if Z.eqb nb_pred 1 then "Spam" else "Not Spam" in
  let lr_result := if Z.eqb lr_pred 1 then "Spam" else "Not Spam" in
  let* nb_confidence := py_max nb_prob in
  let* lr_confidence := py_max lr_prob in
  Ok {| message := message;
        naive_bayes_result := nb_result;
        logistic_regression_result := lr_result;
        naive_bayes_confidence := nb_confidence;
        logistic_regression_confidence := lr_confidence |}.

(** [df['message'].apply(preprocess_text)]: a NaN message is a float. *)
Fixpoint apply_preprocess_text (column : list (option string))
  : res (list string) :=
  match column with
  | [] => Ok []
  | None :: _ =>
      Raise (Exception "'float' object has no attribute 'lower'")
  | Some text :: column' =>
      let* rest := apply_preprocess_text column' in
      Ok (preprocess_text text :: rest)
  end.

(** ** Actions on the shared state

    One action is one read or write of a global name, of an attribute of
    a shared object or of a stream, or one call into the runtime; threads
    interleave between actions. *)
Inductive action : Type -> Type :=
| GetStatus : action Status.t
    (** evaluate [training_status] (to read one of its keys) *)
| SetStatus (f : Status.t -> Status.t) : action unit
    (** write a key of [training_status], or rebind the name *)
| GetClassifier : action nat
    (** evaluate the global [classifier]: a reference *)
| SetClassifier (r : nat) : action unit
| NewClassifier : action nat
    (** [SpamClassifier()] *)
| GetAttr (self : nat) : action SpamClassifier
    (** evaluate [self] (to read one of its attributes) *)
| SetAttr (self : nat) (f : SpamClassifier -> SpamClassifier) : action unit
| Acquire : action unit
| Release : action unit
| Sleep : action unit
| StartThread (t : target) : action unit
| GetStdout : action stream
| SetStdout (s : stream) : action unit
| NewLogCapture : action stream
    (** [LogCapture()] *)
| GetLogs (s : stream) : action (list string)
    (** [log_capture.get_logs()] *)
| WriteTo (s : stream) (text : string) : action unit
    (** [s.write(text)] *)
| ReadCsv : action file.

(** ** Programs *)
Inductive prog (A : Type) : Type :=
| Ret (a : A)
| Throw (e : exn)
| Act {B : Type} (op : action B) (k : B -> prog A).
Arguments Ret {A} a.
Arguments Throw {A} e.
Arguments Act {A B} op k.

Fixpoint bind {A B} (p : prog A) (f : A -> prog B) : prog B :=
  match p with
  | Ret a => f a
  | Throw e => Throw e
  | Act op k => Act op (fun b => bind (k b) f)
  end.

Definition act {B} (op : action B) : prog B := Act op Ret.

(** A call into the library. *)
Definition lift {A} (r : res A) : prog A :=
  match r with
  | Ok a => Ret a
  | Raise e => Throw e
  end.

(** [try: p  except Exception as e: handler(e)] *)
Fixpoint try_except {A} (p : prog A) (handler : string -> prog A) : prog A :=
  match p with
  | Ret a => Ret a
  | Throw (Exception msg) => handler msg
  | Throw (SystemExit code) => Throw (SystemExit code)
  | Act op k => Act op (fun b => try_except (k b) handler)
  end.

(** [try: p  finally: q] *)
Fixpoint try_finally {A} (p : prog A) (q : prog unit) : prog A :=
  match p with
  | Ret a => bind q (fun _ => Ret a)
  | Throw e => bind q (fun _ => Throw e)
  | Act op k => Act op (fun b => try_finally (k b) q)
  end.

(** [with training_lock: p] *)
Definition with_lock {A} (p : prog A) : prog A :=
  bind (act Acquire) (fun _ => try_finally p (act Release)).

End Model.

Arguments Ret {L A} a.
Arguments Throw {L A} e.
Arguments Act {L A B} op k.
Arguments bind {L A B} p f.
Arguments act {L B} op.
Arguments lift {L A} r.
Arguments try_except {L A} p handler.
Arguments try_finally {L A} p q.
Arguments with_lock {L A} p.
Arguments GetStatus {L}.
Arguments SetStatus {L} f.
Arguments GetClassifier {L}.
Arguments SetClassifier {L} r.
Arguments NewClassifier {L}.
Arguments GetAttr {L} self.
Arguments SetAttr {L} self f.
Arguments Acquire {L}.
Arguments Release {L}.
Arguments Sleep {L}.
Arguments StartThread {L} t.
Arguments GetStdout {L}.
Arguments SetStdout {L} s.
Arguments NewLogCapture {L}.
Arguments GetLogs {L} s.
Arguments WriteTo {L} s text.
Arguments ReadCsv {L}.
Arguments vectorizer {L} s.
Arguments nb_classifier {L} s.
Arguments lr_classifier {L} s.
Arguments is_trained {L} s.
Arguments set_vectorizer {L} v o.
Arguments set_nb_classifier {L} v o.
Arguments set_lr_classifier {L} v o.
Arguments set_is_trained {L} v o.

Notation "x <- p ;; q" := (bind p (fun x => q))
  (at level 61, p at next level, right associativity).
Notation "' pat <- p ;; q" := (bind p (fun x => match x with pat => q end))
  (at level 61, pat pattern, p at next level, right associativity).
Notation "p ;; q" := (bind p (fun _ => q))
  (at level 61, right associativity).

(* ===================================================================== *)
(** * [spam_classifier.py]                                                *)
(* ===================================================================== *)

Section SpamClassifierModule.

Variable L : Library.

(** [print(text)]: the text, then the line end, to the current
    [sys.stdout]. *)
Definition print (text : string) : prog L unit :=
  out <- act GetStdout ;;
  act (WriteTo out text) ;;
  act (WriteTo out nl).

(** [load_sms_data()] *)
Definition load_sms_data : prog L (list Row) :=
  f <- act ReadCsv ;;
  match f with
  | Rows df =>
      print "Loaded SMS Spam Collection dataset" ;;
      Ret df
  | Missing =>
      print "Error: SMSSpamCollection file not found in the current directory." ;;
      print "Please download the SMS Spam Collection dataset and place it in the current directory." ;;
      print "The dataset can be found at: https://archive.ics.uci.edu/ml/datasets/sms+spam+collection" ;;
      Throw (SystemExit 1)
  | Unreadable msg => Throw (Exception msg)
  end.

(** [SpamClassifier.train(self)] *)
Definition SpamClassifier_train (self : nat) : prog L (Q * Q) :=
  print "Loading SMS dataset..." ;;
  df <- load_sms_data ;;
  print ("Dataset shape: " ++ str_shape (List.length df, 2)) ;;
  print ("Class distribution:" ++ nl ++ value_counts L (map fst df)) ;;

  print (nl ++ "Preprocessing text data...") ;;
  processed_message <- lift (apply_preprocess_text L (map snd df)) ;;

  print (nl ++ "Feature extraction using TF-IDF...") ;;
  act (SetAttr self (set_vectorizer (Some (TfidfVectorizer L 3000)))) ;;
  o <- act (GetAttr self) ;;
  v <- lift (not_none (vectorizer o) "fit_transform") ;;
  '(v, X) <- lift (fit_transform L v processed_message) ;;
  act (SetAttr self (set_vectorizer (Some v))) ;;
  let y := map map_label (map fst df) in

  print ("Feature matrix shape: " ++ str_shape (shape L X)) ;;

  print (nl ++ "Splitting dataset...") ;;
  '(X_train, X_test, y_train, y_test) <-
    lift (train_test_split L X y (2 # 10) 42 y) ;;
  print ("Training set size: " ++ str_nat (fst (shape L X_train))) ;;
  print ("Testing set size: " ++ str_nat (fst (shape L X_test))) ;;

  print (nl ++ "Training Na" ++ String (ascii_of_nat 239)
            "ve Bayes classifier...") ;;
  act (SetAttr self (set_nb_classifier (Some (MultinomialNB L)))) ;;
  o <- act (GetAttr self) ;;
  nb <- lift (not_none (nb_classifier o) "fit") ;;
  nb <- lift (nb_fit L nb X_train y_train) ;;
  act (SetAttr self (set_nb_classifier (Some nb))) ;;

  o <- act (GetAttr self) ;;
  nb <- lift (not_none (nb_classifier o) "predict") ;;
  nb_y_pred <- lift (nb_predict L nb X_test) ;;
  nb_accuracy <- lift (accuracy_score L y_test nb_y_pred) ;;

  print ("Naive Bayes Accuracy: " ++ format_4f L nb_accuracy) ;;

  print (nl ++ "Training Logistic Regression for comparison...") ;;
  act (SetAttr self
         (set_lr_classifier (Some (LogisticRegression L 42 1000)))) ;;
  o <- act (GetAttr self) ;;
  lr <- lift (not_none (lr_classifier o) "fit") ;;
  lr <- lift (lr_fit L lr X_train y_train) ;;
  act (SetAttr self (set_lr_classifier (Some lr))) ;;

  o <- act (GetAttr self) ;;
  lr <- lift (not_none (lr_classifier o) "predict") ;;
  lr_y_pred <- lift (lr_predict L lr X_test) ;;
  lr_accuracy <- lift (accuracy_score L y_test lr_y_pred) ;;

  print ("Logistic Regression Accuracy: " ++ format_4f L lr_accuracy) ;;

  print (nl ++ "Model evaluation:") ;;
  a <- lift (accuracy_score L y_test nb_y_pred) ;;
  print ("Naive Bayes Accuracy: " ++ format_4f L a) ;;
  a <- lift (precision_score L y_test nb_y_pred) ;;
  print ("Naive Bayes Precision: " ++ format_4f L a) ;;
  a <- lift (recall_score L y_test nb_y_pred) ;;
  print ("Naive Bayes Recall: " ++ format_4f L a) ;;
  a <- lift (accuracy_score L y_test lr_y_pred) ;;
  print ("Logistic Regression Accuracy: " ++ format_4f L a) ;;
  a <- lift (precision_score L y_test lr_y_pred) ;;
  print ("Logistic Regression Precision: " ++ format_4f L a) ;;
  a <- lift (recall_score L y_test lr_y_pred) ;;
  print ("Logistic Regression Recall: " ++ format_4f L a) ;;

  act (SetAttr self (set_is_trained true)) ;;
  print (nl ++ "Training completed. Models are ready for real-time prediction.") ;;

  Ret (nb_accuracy, lr_accuracy).

(** [SpamClassifier.predict(self, message)] *)
Definition SpamClassifier_predict (self : nat) (message : string)
  : prog L PredictionResult :=
  o <- act (GetAttr self) ;;
  if negb (is_trained o) then
    Throw (Exception "Model must be trained first")
  else
    o1 <- act (GetAttr self) ;;
    o2 <- act (GetAttr self) ;;
    o3 <- act (GetAttr self) ;;
    lift (classify_sms_real_time L message
            (vectorizer o1) (nb_classifier o2) (lr_classifier o3)).

End SpamClassifierModule.

(* ===================================================================== *)
(** * [app.py]                                                            *)
(* ===================================================================== *)

Section AppModule.

Variable L : Library.

(** [train_model_thread()] *)
Definition train_model_thread : prog L unit :=
  log_capture <- act NewLogCapture ;;
  act (SetStdout log_capture) ;;
  try_finally
    (try_except
       (with_lock
          (act (SetStatus (Status.set_is_training true)) ;;
           act (SetStatus (Status.set_progress 0)) ;;
           act (SetStatus (Status.set_current_step "Starting training...")) ;;
           act (SetStatus (Status.set_logs [])) ;;
           act (SetStatus (Status.set_error None))) ;;

        act (SetStatus (Status.set_current_step "Loading SMS dataset...")) ;;
        act (SetStatus (Status.set_progress 10)) ;;
        act Sleep ;;

        act (SetStatus (Status.set_current_step "Preprocessing text data...")) ;;
        act (SetStatus (Status.set_progress 30)) ;;
        act Sleep ;;

        act (SetStatus
               (Status.set_current_step "Extracting features using TF-IDF...")) ;;
        act (SetStatus (Status.set_progress 50)) ;;
        act Sleep ;;

        act (SetStatus
               (Status.set_current_step "Training Naive Bayes classifier...")) ;;
        act (SetStatus (Status.set_progress 70)) ;;

        classifier <- act GetClassifier ;;
        '(nb_accuracy, lr_accuracy) <- SpamClassifier_train L classifier ;;

        act (SetStatus
               (Status.set_current_step "Training Logistic Regression...")) ;;
        act (SetStatus (Status.set_progress 90)) ;;
        act Sleep ;;

        act (SetStatus (Status.set_is_trained true)) ;;
        act (SetStatus (Status.set_progress 100)) ;;
        act (SetStatus
               (Status.set_current_step "Training completed successfully!")) ;;
        act (SetStatus
               (Status.set_metrics
                  [("naive_bayes_accuracy", nb_accuracy);
                   ("logistic_regression_accuracy", lr_accuracy)])) ;;
        captured <- act (GetLogs log_capture) ;;
        act (SetStatus (Status.set_logs captured)))
       (fun e =>
          act (SetStatus (Status.set_error (Some e))) ;;
          act (SetStatus (Status.set_current_step ("Error: " ++ e))) ;;
          captured <- act (GetLogs log_capture) ;;
          act (SetStatus (Status.set_logs captured)) ;;
          act (SetStatus
                 (Status.append_log
                    ("ERROR: " ++ format_exc L (Exception e))))))
    (act (SetStdout
            match log_capture with
            | Capture _ original_stdout => original_stdout
            | Console => Console
            end) ;;
     act (SetStatus (Status.set_is_training false))).

(** [POST /api/train] *)
Definition train : prog L Response :=
  st <- act GetStatus ;;
  if Status.is_training st then
    Ret (Error "Training already in progress", 400%Z)
  else
    st <- act GetStatus ;;
    if Status.is_trained st then
      Ret (Message "Model already trained. Retraining...", 200%Z)
    else
      act (StartThread train_model_thread_target) ;;
      Ret (Message "Training started", 200%Z).

(** [GET /api/status] *)
Definition status : prog L Response :=
  st <- act GetStatus ;;
  Ret (StatusJson st, 200%Z).

(** [POST /api/predict]; [message] is the value of the key of that name
    in the request's JSON, when it has one. *)
Definition predict (message : option string) : prog L Response :=
  st <- act GetStatus ;;
  if negb (Status.is_trained st) then
    Ret (Error "Model not trained yet. Please train the model first.",
         400%Z)
  else
    let message := match message with Some m => m | None => "" end in
    if String.eqb message "" then
      Ret (Error "No message provided", 400%Z)
    else
      try_except
        (classifier <- act GetClassifier ;;
         result <- SpamClassifier_predict L classifier message ;;
         Ret (Prediction result, 200%Z))
        (fun e => Ret (Error e, 500%Z)).

(** The loop of [batch_predict]. *)
Fixpoint predict_each (messages : list string)
    (results : list PredictionResult) : prog L (list PredictionResult) :=
  match messages with
  | [] => Ret results
  | msg :: messages' =>
      classifier <- act GetClassifier ;;
      result <- SpamClassifier_predict L classifier msg ;;
      predict_each messages' (results ++ [result])
  end.

(** [POST /api/batch-predict] *)
Definition batch_predict (messages : option (list string))
  : prog L Response :=
  st <- act GetStatus ;;
  if negb (Status.is_trained st) then
    Ret (Error "Model not trained yet. Please train the model first.",
         400%Z)
  else
    let messages := match messages with Some ms => ms | None => [] end in
    match messages with
    | [] => Ret (Error "No messages provided", 400%Z)
    | _ :: _ =>
        try_except
          (results <- predict_each messages [] ;;
           Ret (Results results, 200%Z))
          (fun e => Ret (Error e, 500%Z))
    end.

(** [POST /api/reset] *)
Definition reset : prog L Response :=
  st <- act GetStatus ;;
  if Status.is_training st then
    Ret (Error "Cannot reset while training is in progress", 400%Z)
  else
    act (SetStatus (fun _ => Status.initial)) ;;
    fresh <- act NewClassifier ;;
    act (SetClassifier fresh) ;;
    Ret (Message "Reset successful", 200%Z).

End AppModule.

(* ===================================================================== *)
(** * The process: shared state, threads and their execution             *)
(* ===================================================================== *)

Section Process.

Variable L : Library.

(** A thread of the server: a request being handled, or a background
    thread started by a handler. *)
Inductive thread : Type :=
| Request (p : prog L Response)
| Worker (p : prog L unit).

(** The module-level state of [app.py] and what it refers to. *)
Record World : Type := {
  training_status : Status.t;            (* the global dictionary *)
  classifier : nat;                      (* the global name: a reference *)
  objects : nat -> SpamClassifier L;     (* the objects references name *)
  next_object : nat;                     (* the next fresh reference *)
  sys_stdout : stream;
  captures : nat -> list string;         (* [LogCapture.logs], by id *)
  next_capture : nat;
  console : list string;                 (* text written to the console *)
  training_lock : bool;                  (* is the lock held *)
  dataset : file;                        (* the file SMSSpamCollection *)
  threads : list thread
}.

Definition with_training_status (v : Status.t) (w : World) : World :=
  {| training_status := v; classifier := classifier w;
     objects := objects w; next_object := next_object w;
     sys_stdout := sys_stdout w; captures := captures w;
     next_capture := next_capture w; console := console w;
     training_lock := training_lock w; dataset := dataset w;
     threads := threads w |}.
Definition with_classifier (v : nat) (w : World) : World :=
  {| training_status := training_status w; classifier := v;
     objects := objects w; next_object := next_object w;
     sys_stdout := sys_stdout w; captures := captures w;
     next_capture := next_capture w; console := console w;
     training_lock := training_lock w; dataset := dataset w;
     threads := threads w |}.
Definition with_objects (v : nat -> SpamClassifier L) (n : nat)
    (w : World) : World :=
  {| training_status := training_status w; classifier := classifier w;
     objects := v; next_object := n;
     sys_stdout := sys_stdout w; captures := captures w;
     next_capture := next_capture w; console := console w;
     training_lock := training_lock w; dataset := dataset w;
     threads := threads w |}.
Definition with_sys_stdout (v : stream) (w : World) : World :=
  {| training_status := training_status w; classifier := classifier w;
     objects := objects w; next_object := next_object w;
     sys_stdout := v; captures := captures w;
     next_capture := next_capture w; console := console w;
     training_lock := training_lock w; dataset := dataset w;
     threads := threads w |}.
Definition with_captures (v : nat -> list string) (n : nat)
    (w : World) : World :=
  {| training_status := training_status w; classifier := classifier w;
     objects := objects w; next_object := next_object w;
     sys_stdout := sys_stdout w; captures := v;
     next_capture := n; console := console w;
     training_lock := training_lock w; dataset := dataset w;
     threads := threads w |}.
Definition with_console (v : list string) (w : World) : World :=
  {| training_status := training_status w; classifier := classifier w;
     objects := objects w; next_object := next_object w;
     sys_stdout := sys_stdout w; captures := captures w;
     next_capture := next_capture w; console := v;
     training_lock := training_lock w; dataset := dataset w;
     threads := threads w |}.
Definition with_training_lock (v : bool) (w : World) : World :=
  {| training_status := training_status w; classifier := classifier w;
     objects := objects w; next_object := next_object w;
     sys_stdout := sys_stdout w; captures := captures w;
     next_capture := next_capture w; console := console w;
     training_lock := v; dataset := dataset w;
     threads := threads w |}.
Definition with_threads (v : list thread) (w : World) : World :=
  {| training_status := training_status w; classifier := classifier w;
     objects := objects w; next_object := next_object w;
     sys_stdout := sys_stdout w; captures := captures w;
     next_capture := next_capture w; console := console w;
     training_lock := training_lock w; dataset := dataset w;
     threads := v |}.

Definition with_dataset (v : file) (w : World) : World :=
  {| training_status := training_status w; classifier := classifier w;
     objects := objects w; next_object := next_object w;
     sys_stdout := sys_stdout w; captures := captures w;
     next_capture := next_capture w; console := console w;
     training_lock := training_lock w; dataset := v;
     threads := threads w |}.

(** A store indexed by references, updated at one of them. *)
Definition update {A} (store : nat -> A) (r : nat) (a : A) : nat -> A :=
  fun r' => if Nat.eqb r' r then a else store r'.

(** [s.write(text)].  [LogCapture.write] keeps the stripped text and
    passes the text on, unless it is blank. *)
Fixpoint write (s : stream) (text : string) (w : World) : World :=
  match s with
  | Console => with_console (console w ++ [text]) w
  | Capture id original_stdout =>
      if String.eqb (Text.strip text) "" then w
      else
        write original_stdout text
          (with_captures
             (update (captures w) id (captures w id ++ [Text.strip text]))
             (next_capture w) w)
  end.

(** The state after [print(text)]. *)
Definition printed (text : string) (w : World) : World :=
  write (sys_stdout w) nl (write (sys_stdout w) text w).

(** The state after [self.attribute = value]. *)
Definition assigned (self : nat)
    (f : SpamClassifier L -> SpamClassifier L) (w : World) : World :=
  with_objects (update (objects w) self (f (objects w self)))
    (next_object w) w.

(** The function a thread runs. *)
Definition body_of (t : target) : prog L unit :=
  match t with
  | train_model_thread_target => train_model_thread L
  end.

(** One action on the shared state: its value and the state after it, or
    [None] when the action has to wait (a lock that is held). *)
Definition perform {B} (op : action L B) (w : World) : option (B * World) :=
  match op in action _ B return option (B * World) with
  | GetStatus => Some (training_status w, w)
  | SetStatus f =>
      Some (tt, with_training_status (f (training_status w)) w)
  | GetClassifier => Some (classifier w, w)
  | SetClassifier r => Some (tt, with_classifier r w)
  | NewClassifier =>
      Some (next_object w,
            with_objects
              (update (objects w) (next_object w) (SpamClassifier_init L))
              (S (next_object w)) w)
  | GetAttr self => Some (objects w self, w)
  | SetAttr self f => Some (tt, assigned self f w)
  | Acquire =>
      if training_lock w then None
      else Some (tt, with_training_lock true w)
  | Release => Some (tt, with_training_lock false w)
  | Sleep => Some (tt, w)
  | StartThread t =>
      Some (tt, with_threads (threads w ++ [Worker (body_of t)]) w)
  | GetStdout => Some (sys_stdout w, w)
  | SetStdout s => Some (tt, with_sys_stdout s w)
  | NewLogCapture =>
      Some (Capture (next_capture w) (sys_stdout w),
            with_captures (update (captures w) (next_capture w) [])
              (S (next_capture w)) w)
  | GetLogs s =>
      Some (match s with
            | Capture id _ => captures w id
            | Console => []
            end, w)
  | WriteTo s text => Some (tt, write s text w)
  | ReadCsv => Some (dataset w, w)
  end.

(** How a program ends when it runs on its own. *)
Inductive result (A : Type) : Type :=
| Done (a : A)
| Raised (e : exn)
| Blocked.
Arguments Done {A} a.
Arguments Raised {A} e.
Arguments Blocked {A}.

(** A program run to its end with no other thread in between. *)
Fixpoint run {A} (p : prog L A) (w : World) : result A * World :=
  match p with
  | Ret a => (Done a, w)
  | Throw e => (Raised e, w)
  | Act op k =>
      match perform op w with
      | Some (b, w') => run (k b) w'
      | None => (Blocked, w)
      end
  end.

(** The states such a run goes through: the state after each action. *)
Fixpoint observe {A} (p : prog L A) (w : World) : list World :=
  match p with
  | Ret _ => []
  | Throw _ => []
  | Act op k =>
      match perform op w with
      | Some (b, w') => w' :: observe (k b) w'
      | None => []
      end
  end.

(** Programs all of whose actions satisfy [allowed]. *)
Fixpoint only (allowed : forall B, action L B -> Prop) {A} (p : prog L A)
  : Prop :=
  match p with
  | Ret _ => True
  | Throw _ => True
  | Act op k => allowed _ op /\ forall b, only allowed (k b)
  end.

(** Actions that do not write [training_status]. *)
Definition keeps_status (B : Type) (op : action L B) : Prop :=
  match op with
  | SetStatus _ => False
  | _ => True
  end.

(** Assertions for following a method of the object [self] statement by
    statement.  [agree self w w'] : the state [w'] differs from [w] at
    most in the object [self] and in what was printed. *)
Definition agree (self : nat) (w w' : World) : Prop :=
  (forall r, r <> self -> objects w' r = objects w r) /\
  training_status w' = training_status w /\
  classifier w' = classifier w /\
  training_lock w' = training_lock w /\
  threads w' = threads w /\
  dataset w' = dataset w /\
  sys_stdout w' = sys_stdout w.

(** [stops self w o r R] : the outcome [R] is the result [r] in a state
    that agrees with [w] and holds [o] for [self]. *)
Definition stops {A} (self : nat) (w : World) (o : SpamClassifier L)
    (r : result A) (R : result A * World) : Prop :=
  exists w', agree self w w' /\ objects w' self = o /\ R = (r, w').

(** [ends self w o p R] : [R] is the outcome of [p] run from a state that
    agrees with [w] and holds [o] for [self]. *)
Definition ends {A} (self : nat) (w : World) (o : SpamClassifier L)
    (p : prog L A) (R : result A * World) : Prop :=
  exists w', agree self w w' /\ objects w' self = o /\ run p w' = R.

(** The values of [progress] along a sequence of states. *)
Definition progress_trace (ws : list World) : list Z :=
  map (fun w => Status.progress (training_status w)) ws.

(** Actions that never wait and leave [training_status], the global
    [classifier] and the lock as they are. *)
Definition calm (B : Type) (op : action L B) : Prop :=
  match op with
  | NewLogCapture | SetStdout _ | GetStdout | GetLogs _ | WriteTo _ _
  | Sleep | GetStatus | GetAttr _ | SetAttr _ _ | ReadCsv => True
  | _ => False
  end.

(** [follows c l s p t R] : run from a state in which the global
    [classifier] is [c], the lock is held or not as [l] says and
    [training_status] is [s], the program [p] goes through states whose
    progress values are [t] and ends as [R]. *)
Definition follows {A} (c : nat) (l : bool) (s : Status.t)
    (p : prog L A) (t : list Z) (R : result A * World) : Prop :=
  exists w,
    classifier w = c /\ training_lock w = l /\ training_status w = s /\
    progress_trace (observe p w) = t /\ run p w = R.

(** Program transformers that leave the actions of a program in place,
    as [try_except] and [try_finally] do. *)
Definition transparent {A B} (T : prog L A -> prog L B) : Prop :=
  forall C (op : action L C) (k : C -> prog L A),
    T (Act op k) = Act op (fun c => T (k c)).

(** ** Threads under a schedule *)

Fixpoint replace {A} (i : nat) (a : A) (l : list A) : list A :=
  match l, i with
  | [], _ => []
  | _ :: l', O => a :: l'
  | x :: l', S i' => x :: replace i' a l'
  end.

(** Thread [i] performs its next action. *)
Definition step (i : nat) (w : World) : option World :=
  match nth_error (threads w) i with
  | Some (Request (Act op k)) =>
      match perform op w with
      | Some (b, w') =>
          Some (with_threads (replace i (Request (k b)) (threads w')) w')
      | None => None
      end
  | Some (Worker (Act op k)) =>
      match perform op w with
      | Some (b, w') =>
          Some (with_threads (replace i (Worker (k b)) (threads w')) w')
      | None => None
      end
  | _ => None
  end.

(** The threads named by the schedule step one after the other. *)
Fixpoint exec (schedule : list nat) (w : World) : option World :=
  match schedule with
  | [] => Some w
  | i :: schedule' =>
      match step i w with
      | Some w' => exec schedule' w'
      | None => None
      end
  end.

(** A request arrives: a thread is created for its handler. *)
Definition arrive (handler : prog L Response) (w : World) : World :=
  with_threads (threads w ++ [Request handler]) w.

(** The response of request thread [i], once its handler has returned. *)
Definition response (i : nat) (w : World) : option Response :=
  match nth_error (threads w) i with
  | Some (Request (Ret r)) => Some r
  | _ => None
  end.

(** A background thread that has started and not ended. *)
Definition running (t : thread) : bool :=
  match t with
  | Worker (Act _ _) => true
  | _ => false
  end.

(** The process right after start-up. *)
Definition start_up (f : file) : World :=
  {| training_status := Status.initial; classifier := 0;
     objects := fun _ => SpamClassifier_init L; next_object := 1;
     sys_stdout := Console; captures := fun _ => []; next_capture := 0;
     console := []; training_lock := false; dataset := f;
     threads := [] |}.

End Process.

Arguments Done {A} a.
Arguments Raised {A} e.
Arguments Blocked {A}.
Arguments Request {L} p.
Arguments Worker {L} p.
Arguments training_status {L} w.
Arguments classifier {L} w.
Arguments objects {L} w r.
Arguments next_object {L} w.
Arguments sys_stdout {L} w.
Arguments captures {L} w id.
Arguments next_capture {L} w.
Arguments console {L} w.
Arguments training_lock {L} w.
Arguments dataset {L} w.
Arguments threads {L} w.
Arguments perform {L B} op w.
Arguments run {L A} p w.
Arguments observe {L A} p w.
Arguments only {L} allowed {A} p.
Arguments transparent {L A B} T.
Arguments keeps_status {L} B op.
Arguments calm {L} B op.
Arguments follows {L A} c l s p t R.
Arguments agree {L} self w w'.
Arguments stops {L A} self w o r R.
Arguments ends {L A} self w o p R.
Arguments progress_trace {L} ws.
Arguments with_dataset {L} v w.
Arguments printed {L} text w.
Arguments assigned {L} self f w.
Arguments write {L} s text w.
Arguments step {L} i w.
Arguments exec {L} schedule w.
Arguments arrive {L} handler w.
Arguments response {L} i w.
Arguments running {L} t.

(* ===================================================================== *)
(** * The training pipeline as a function, and the thread's bookkeeping   *)
(* ===================================================================== *)

Section Pipeline.

Variable L : Library.

(** The estimators and accuracies [train] computes from the dataset file,
    without the object it stores them in: the calls of the library in the
    order [train] makes them, the first one that raises ending the
    pipeline. *)
Definition train_pipeline (f : file)
  : res (Vectorizer L * NaiveBayes L * LogReg L * (Q * Q)) :=
  match f with
  | Missing => Raise (SystemExit 1)
  | Unreadable msg => Raise (Exception msg)
  | Rows df =>
      let* processed_message := apply_preprocess_text L (map snd df) in
      let* fitted := fit_transform L (TfidfVectorizer L 3000) processed_message in
      let y := map map_label (map fst df) in
      let* parts := train_test_split L (snd fitted) y (2 # 10) 42 y in
      let X_train := fst (fst (fst parts)) in
      let X_test := snd (fst (fst parts)) in
      let y_train := snd (fst parts) in
      let y_test := snd parts in
      let* nb := nb_fit L (MultinomialNB L) X_train y_train in
      let* nb_y_pred := nb_predict L nb X_test in
      let* nb_accuracy := accuracy_score L y_test nb_y_pred in
      let* lr := lr_fit L (LogisticRegression L 42 1000) X_train y_train in
      let* lr_y_pred := lr_predict L lr X_test in
      let* lr_accuracy := accuracy_score L y_test lr_y_pred in
      let* _ := accuracy_score L y_test nb_y_pred in
      let* _ := precision_score L y_test nb_y_pred in
      let* _ := recall_score L y_test nb_y_pred in
      let* _ := accuracy_score L y_test lr_y_pred in
      let* _ := precision_score L y_test lr_y_pred in
      let* _ := recall_score L y_test lr_y_pred in
      Ok (fst fitted, nb, lr, (nb_accuracy, lr_accuracy))
  end.

(** What [train] returns or raises, by the pipeline. *)
Definition train_outcome (f : file) : result (Q * Q) :=
  match train_pipeline f with
  | Ok (_, _, _, accuracies) => Done accuracies
  | Raise e => Raised e
  end.

End Pipeline.

Section Tracking.

Variable L : Library.

(** [tracks c m l o d s p R] : [R] is the outcome of [p] run from a state
    in which the global [classifier] is [c] and names the object [m], the
    lock is held or not as [l] says, [sys.stdout] is [o], the dataset
    file is [d] and [training_status] is [s]. *)
Definition tracks {A} (c : nat) (m : SpamClassifier L) (l : bool)
    (o : stream) (d : file) (s : Status.t) (p : prog L A)
    (R : result A * World L) : Prop :=
  exists w,
    classifier w = c /\ objects w c = m /\ training_lock w = l /\
    sys_stdout w = o /\ dataset w = d /\ training_status w = s /\
    run p w = R.

End Tracking.

Arguments tracks {L A} c m l o d s p R.

(* ===================================================================== *)
(** * A small instance of the library, to run the programs               *)
(* ===================================================================== *)

(** A few of NLTK's English stop words. *)
Definition sample_stop_words : list string :=
  ["i"; "me"; "my"; "you"; "your"; "a"; "an"; "the"; "and"; "is"; "are";
   "to"; "of"; "in"; "at"; "can"; "not"; "now"; "will"; "be"; "we"].

Module Bag.

(** A bag-of-words stand-in for the estimators: the vectorizer learns
    the words of the corpus, a classifier learns one weight per word
    (occurrences in spam minus occurrences in ham) and calls a message
    spam when its weighted word count is positive.  Objects that are
    not fitted hold [None]. *)

Fixpoint dedup (ws : list string) : list string :=
  match ws with
  | [] => []
  | w :: ws' => if Text.mem w ws' then dedup ws' else w :: dedup ws'
  end.

Definition count_word (w : string) (doc : string) : nat :=
  List.length (filter (String.eqb w) (Text.split doc)).

Definition encode (vocabulary : list string) (docs : list string)
  : list (list nat) :=
  map (fun doc => map (fun w => count_word w doc) vocabulary) docs.

Definition learn (_ : option (list string)) (docs : list string)
  : res (option (list string) * list (list nat)) :=
  match dedup (flat_map Text.split docs) with
  | [] =>
      Raise (Exception
        "empty vocabulary; perhaps the documents only contain stop words")
  | vocabulary => Ok (Some vocabulary, encode vocabulary docs)
  end.

Definition encode_with (v : option (list string)) (docs : list string)
  : res (list (list nat)) :=
  match v with
  | Some vocabulary => Ok (encode vocabulary docs)
  | None => Raise (Exception "The TF-IDF vectorizer is not fitted")
  end.

Definition dims (X : list (list nat)) : nat * nat :=
  (List.length X, match X with row :: _ => List.length row | [] => 0 end).

Definition count_label (l : Z) (y : Labels) : nat :=
  List.length
    (filter (fun v => match v with Some z => Z.eqb z l | None => false end)
       y).

(** The split keeps every row on both sides; what it shares with the
    real one is what it refuses. *)
Definition split_rows (X : list (list nat)) (y : Labels)
    (test_size : Q) (random_state : Z) (stratify : Labels)
  : res (list (list nat) * list (list nat) * Labels * Labels) :=
  if existsb (fun v => match v with None => true | Some _ => false end)
       stratify
  then Raise (Exception "Input y contains NaN.")
  else if (count_label 0 stratify <? 2) || (count_label 1 stratify <? 2)
  then Raise (Exception
    "The least populated class in y has only 1 member, which is too few. The minimum number of groups for any class cannot be less than 2.")
  else Ok (X, X, y, y).

Definition signed (label : option Z) (n : nat) : Z :=
  match label with
  | Some 1%Z => Z.of_nat n
  | _ => (- Z.of_nat n)%Z
  end.

Fixpoint add_rows (a b : list Z) : list Z :=
  match a, b with
  | x :: a', y :: b' => (x + y)%Z :: add_rows a' b'
  | [], b => b
  | a, [] => a
  end.

Fixpoint weights (X : list (list nat)) (y : Labels) : list Z :=
  match X, y with
  | row :: X', label :: y' =>
      add_rows (map (signed label) row) (weights X' y')
  | _, _ => []
  end.

Definition fit (_ : option (list Z)) (X : list (list nat)) (y : Labels)
  : res (option (list Z)) :=
  Ok (Some (weights X y)).

Fixpoint score (row : list nat) (w : list Z) : Z :=
  match row, w with
  | n :: row', z :: w' => (Z.of_nat n * z + score row' w')%Z
  | _, _ => 0%Z
  end.

Definition predict (model : option (list Z)) (X : list (list nat))
  : res (list Z) :=
  match model with
  | Some w => Ok (map (fun row => if (0 <? score row w)%Z then 1 else 0)%Z X)
  | None => Raise (Exception "This estimator is not fitted yet.")
  end.

Definition predict_proba (sure : Q) (model : option (list Z))
    (X : list (list nat)) : res (list (list Q)) :=
  match model with
  | Some w =>
      Ok (map (fun row =>
                 if (0 <? score row w)%Z then [1 - sure; sure]%Q
                 else [sure; 1 - sure]%Q) X)
  | None => Raise (Exception "This estimator is not fitted yet.")
  end.

Fixpoint agreements (y : Labels) (pred : list Z) : nat :=
  match y, pred with
  | Some a :: y', b :: pred' =>
      (if Z.eqb a b then 1 else 0) + agreements y' pred'
  | None :: y', _ :: pred' => agreements y' pred'
  | _, _ => 0
  end.

Definition accuracy (y : Labels) (pred : list Z) : res Q :=
  Ok (Z.of_nat (agreements y pred) # Pos.of_nat (List.length y)).

Definition library : Library :=
  {| Vectorizer := option (list string);
     Matrix := list (list nat);
     NaiveBayes := option (list Z);
     LogReg := option (list Z);
     stop_words := sample_stop_words;
     TfidfVectorizer := fun _ => None;
     fit_transform := learn;
     transform := encode_with;
     shape := dims;
     train_test_split := split_rows;
     MultinomialNB := None;
     nb_fit := fit;
     nb_predict := predict;
     nb_predict_proba := predict_proba (3 # 4);
     LogisticRegression := fun _ _ => None;
     lr_fit := fit;
     lr_predict := predict;
     lr_predict_proba := predict_proba (9 # 10);
     accuracy_score := accuracy;
     precision_score := accuracy;
     recall_score := accuracy;
     value_counts := fun _ => "label";
     format_4f := fun _ => "0.0000";
     format_exc := fun e =>
       match e with
       | Exception msg =>
           ("Traceback (most recent call last): " ++ msg)%string
       | SystemExit _ => "SystemExit"
       end |}.

(** A dataset with two spam and three ham messages. *)
Definition corpus : list Row :=
  [ ("spam", Some "FREE prize! Claim your free money now");
    ("ham",  Some "See you at lunch tomorrow");
    ("spam", Some "Win money, win a FREE phone");
    ("ham",  Some "Are we still meeting for lunch?");
    ("ham",  Some "Call me when you get home") ].

(** A dataset with a single spam message: the stratified split refuses
    it. *)
Definition lopsided : list Row :=
  [ ("spam", Some "FREE prize! Claim your free money now");
    ("ham",  Some "See you at lunch tomorrow");
    ("ham",  Some "Are we still meeting for lunch?") ].

End Bag.

(* ===================================================================== *)
(** * Sample states and schedules                                         *)
(* ===================================================================== *)

Module Scenario.

Definition L : Library := Bag.library.

(** The process right after start-up, with the dataset on disk. *)
Definition idle : World L := start_up L (Rows Bag.corpus).

(** A state in which a training run is active. *)
Definition busy : World L :=
  with_training_status L (Status.set_is_training true Status.initial) idle.

(** The state after one training thread ran from start to end. *)
Definition completed : World L := snd (run (train_model_thread L) idle).

(** The state after [classifier.train()] was called once, directly. *)
Definition trained : World L := snd (run (SpamClassifier_train L 0) idle).

(** The same, the dataset file then replaced by one with a single spam
    message. *)
Definition trained_then_lopsided : World L :=
  with_dataset (Rows Bag.lopsided) trained.

(** Three requests have arrived: threads 0 and 1 handle a
    [POST /api/train] each, thread 2 a [POST /api/predict]. *)
Definition requests : World L :=
  arrive (predict L (Some "free money"))
    (arrive (train L) (arrive (train L) idle)).

(** Both [train] handlers run, one after the other (three actions each:
    the two reads of the status and the start of the thread); they start
    the threads 3 and 4. *)
Definition both_handlers : list nat := [0; 0; 0; 1; 1; 1].

(** Then each training thread runs up to the end of its [with
    training_lock] block (nine actions). *)
Definition both_started : list nat :=
  both_handlers ++ repeat 3 9 ++ repeat 4 9.

(** Or: thread 3 runs to its end (111 actions). *)
Definition first_done : list nat := both_handlers ++ repeat 3 111.

(** Then thread 4 runs up to and including
    [self.vectorizer = TfidfVectorizer(max_features=3000)] (41 actions). *)
Definition second_midway : list nat := first_done ++ repeat 4 41.

(** Then the [predict] handler runs to its end (six actions). *)
Definition predicted : list nat := second_midway ++ repeat 2 6.

(** What [f] sees in the state a schedule leads to. *)
Definition seen {A} (f : World L -> A) (schedule : list nat) : option A :=
  option_map f (exec schedule requests).

End Scenario.

(* ===================================================================== *)
(** * Facts about text normalisation                                      *)
(* ===================================================================== *)

Module TextFacts.
Import Text.

Lemma lower_char_not_upper (c : ascii) : is_ascii_upper (lower_char c) = false.
Proof. destruct c as [[] [] [] [] [] [] [] []]; reflexivity. Qed.

Lemma lower_char_fixes (c : ascii) :
  is_lower_or_space c = true -> lower_char c = c.
Proof. destruct c as [[] [] [] [] [] [] [] []]; cbv; congruence. Qed.

Lemma kept_fixes (c : ascii) :
  is_lower_or_space c = true -> is_ascii_letter c || isspace c = true.
Proof. destruct c as [[] [] [] [] [] [] [] []]; cbv; congruence. Qed.

Lemma lower_not_space (c : ascii) : is_ascii_lower c = true -> isspace c = false.
Proof. destruct c as [[] [] [] [] [] [] [] []]; cbv; congruence. Qed.

Lemma lower_is_lower_or_space (c : ascii) :
  is_ascii_lower c = true -> is_lower_or_space c = true.
Proof. unfold is_lower_or_space. intros ->. reflexivity. Qed.

Lemma letter_not_upper (c : ascii) :
  is_ascii_letter c || isspace c = true -> is_ascii_upper c = false ->
  isspace c = false -> is_ascii_lower c = true.
Proof. destruct c as [[] [] [] [] [] [] [] []]; cbv; congruence. Qed.


Lemma split_eq (c : ascii) (s' : string) :
  split (String c s') =
  if isspace c then split s'
  else match s' with
       | EmptyString => [String c EmptyString]
       | String d _ =>
           if isspace d then String c EmptyString :: split s'
           else match split s' with
                | w :: ws => String c w :: ws
                | [] => [String c EmptyString]
                end
       end.
Proof. destruct s'; reflexivity. Qed.

Lemma all_impl (p q : ascii -> bool) (s : string) :
  (forall c, p c = true -> q c = true) -> all p s = true -> all q s = true.
Proof.
  intros Hpq. induction s as [|c s IH]; simpl; [reflexivity|].
  intros H. apply andb_true_iff in H as [Hc Hs].
  rewrite (Hpq _ Hc), (IH Hs). reflexivity.
Qed.

Lemma split_pieces (p : ascii -> bool) (s : string) :
  all (fun c => isspace c || p c) s = true -> Forall (piece p) (split s).
Proof.
  induction s as [|c s' IH]; [constructor|].
  intros H. simpl in H. apply andb_true_iff in H as [Hc Hs].
  specialize (IH Hs). rewrite split_eq.
  destruct (isspace c) eqn:Ec; [exact IH|].
  simpl in Hc.
  assert (Hone : piece p (String c EmptyString)).
  { split; [discriminate|]. simpl. rewrite Ec, Hc. reflexivity. }
  destruct s' as [|d s'']; [constructor; [exact Hone|constructor]|].
  destruct (isspace d) eqn:Ed; [constructor; assumption|].
  destruct (split (String d s'')) as [|w ws]; [constructor; [exact Hone|constructor]|].
  inversion IH as [|? ? [Hw1 Hw2] Hws]; subst.
  constructor; [|exact Hws].
  split; [discriminate|]. simpl. rewrite Ec, Hc, Hw2. reflexivity.
Qed.

Lemma split_piece_sep (p : ascii -> bool) (w rest : string) :
  piece p w -> split (w ++ String " " rest) = w :: split rest.
Proof.
  intros [Hne Hall]. induction w as [|c w' IH]; [congruence|].
  simpl in Hall. apply andb_true_iff in Hall as [Hc Hw'].
  apply andb_true_iff in Hc as [Hc _]. apply negb_true_iff in Hc.
  change (String c w' ++ String " " rest)%string
    with (String c (w' ++ String " " rest)).
  rewrite split_eq, Hc.
  destruct w' as [|d w'']; [reflexivity|].
  pose proof Hw' as Hd. simpl in Hd. apply andb_true_iff in Hd as [Hd _].
  apply andb_true_iff in Hd as [Hd _]. apply negb_true_iff in Hd.
  change (String d w'' ++ String " " rest)%string
    with (String d (w'' ++ String " " rest)).
  cbv iota. rewrite Hd.
  change (String d (w'' ++ String " " rest))
    with (String d w'' ++ String " " rest)%string.
  rewrite IH; [reflexivity|discriminate|exact Hw'].
Qed.

Lemma split_piece (p : ascii -> bool) (w : string) :
  piece p w -> split w = [w].
Proof.
  intros [Hne Hall]. induction w as [|c w' IH]; [congruence|].
  simpl in Hall. apply andb_true_iff in Hall as [Hc Hw'].
  apply andb_true_iff in Hc as [Hc _]. apply negb_true_iff in Hc.
  rewrite split_eq, Hc.
  destruct w' as [|d w'']; [reflexivity|].
  pose proof Hw' as Hd. simpl in Hd. apply andb_true_iff in Hd as [Hd _].
  apply andb_true_iff in Hd as [Hd _]. apply negb_true_iff in Hd.
  rewrite Hd, IH; [reflexivity|discriminate|exact Hw'].
Qed.

Lemma join_cons (w v : string) (ws : list string) :
  join " " (w :: v :: ws) = (w ++ String " " (join " " (v :: ws)))%string.
Proof. reflexivity. Qed.

Lemma split_join (p : ascii -> bool) (ws : list string) :
  Forall (piece p) ws -> split (join " " ws) = ws.
Proof.
  induction 1 as [|w ws Hw Hws IH]; [reflexivity|].
  destruct ws as [|v ws'].
  - exact (split_piece p w Hw).
  - rewrite join_cons, (split_piece_sep p _ _ Hw), IH. reflexivity.
Qed.


Lemma rstrip_piece (p : ascii -> bool) (w : string) :
  piece p w -> rstrip w = w.
Proof.
  intros [Hne Hall]. induction w as [|c w' IH]; [congruence|].
  simpl in Hall. apply andb_true_iff in Hall as [Hc Hw'].
  apply andb_true_iff in Hc as [Hc _]. apply negb_true_iff in Hc.
  simpl. destruct w' as [|d w'']; [simpl; rewrite Hc; reflexivity|].
  rewrite IH; [reflexivity|discriminate|exact Hw'].
Qed.

Lemma rstrip_app (a b : string) :
  b <> "" -> rstrip b = b -> rstrip (a ++ b) = (a ++ b)%string.
Proof.
  intros Hne Hb. induction a as [|c a IH]; [exact Hb|].
  simpl. rewrite IH. destruct (a ++ b)%string eqn:E; [|reflexivity].
  destruct a; simpl in E; [congruence|discriminate].
Qed.

Lemma join_not_empty (p : ascii -> bool) (w : string) (ws : list string) :
  piece p w -> join " " (w :: ws) <> "".
Proof.
  intros [Hne _]. destruct w as [|c w']; [congruence|].
  destruct ws; [discriminate|]. rewrite join_cons. discriminate.
Qed.

Lemma rstrip_join (p : ascii -> bool) (ws : list string) :
  Forall (piece p) ws -> rstrip (join " " ws) = join " " ws.
Proof.
  induction 1 as [|w ws Hw Hws IH]; [reflexivity|].
  destruct ws as [|v ws']; [exact (rstrip_piece p w Hw)|].
  rewrite join_cons.
  change (w ++ String " " (join " " (v :: ws')))%string
    with (w ++ (String " " EmptyString ++ join " " (v :: ws')))%string.
  apply rstrip_app; [discriminate|].
  apply rstrip_app; [|exact IH].
  inversion Hws; subst. eapply join_not_empty; eassumption.
Qed.

Lemma lstrip_join (p : ascii -> bool) (ws : list string) :
  Forall (piece p) ws -> lstrip (join " " ws) = join " " ws.
Proof.
  intros H. destruct H as [|w ws [Hne Hall] Hws]; [reflexivity|].
  destruct w as [|c w']; [congruence|].
  simpl in Hall. apply andb_true_iff in Hall as [Hc _].
  apply andb_true_iff in Hc as [Hc _]. apply negb_true_iff in Hc.
  destruct ws as [|v ws']; [simpl; rewrite Hc; reflexivity|].
  rewrite join_cons. simpl. rewrite Hc. reflexivity.
Qed.

Lemma strip_join (ws : list string) :
  Forall word ws -> strip (join " " ws) = join " " ws.
Proof.
  intros H. unfold strip.
  rewrite (lstrip_join is_ascii_lower ws H).
  apply (rstrip_join is_ascii_lower ws H).
Qed.

Lemma all_app (p : ascii -> bool) (s t : string) :
  all p (s ++ t) = all p s && all p t.
Proof.
  induction s as [|c s IH]; simpl; [reflexivity|].
  rewrite IH, andb_assoc. reflexivity.
Qed.

Lemma lower_no_upper (s : string) :
  all (fun c => negb (is_ascii_upper c)) (lower s) = true.
Proof.
  induction s as [|c s IH]; simpl; [reflexivity|].
  rewrite lower_char_not_upper, IH. reflexivity.
Qed.

Lemma lower_fixes (s : string) :
  all is_lower_or_space s = true -> lower s = s.
Proof.
  induction s as [|c s IH]; simpl; [reflexivity|].
  intros H. apply andb_true_iff in H as [Hc Hs].
  rewrite (lower_char_fixes c Hc), (IH Hs). reflexivity.
Qed.

Lemma strip_non_letters_fixes (s : string) :
  all is_lower_or_space s = true -> strip_non_letters s = s.
Proof.
  induction s as [|c s IH]; simpl; [reflexivity|].
  intros H. apply andb_true_iff in H as [Hc Hs].
  rewrite (kept_fixes c Hc), (IH Hs). reflexivity.
Qed.

Lemma strip_non_letters_all (p : ascii -> bool) (s : string) :
  all p s = true -> all p (strip_non_letters s) = true.
Proof.
  induction s as [|c s IH]; simpl; [reflexivity|].
  intros H. apply andb_true_iff in H as [Hc Hs].
  destruct (is_ascii_letter c || isspace c); simpl; [rewrite Hc|]; auto.
Qed.

Lemma strip_non_letters_kept (s : string) :
  all (fun c => is_ascii_letter c || isspace c) (strip_non_letters s) = true.
Proof.
  induction s as [|c s IH]; simpl; [reflexivity|].
  destruct (is_ascii_letter c || isspace c) eqn:E; simpl; [rewrite E|]; auto.
Qed.

Lemma all_and (p q : ascii -> bool) (s : string) :
  all p s = true -> all q s = true -> all (fun c => p c && q c) s = true.
Proof.
  induction s as [|c s IH]; simpl; [reflexivity|].
  intros Hp Hq. apply andb_true_iff in Hp as [Hp1 Hp2].
  apply andb_true_iff in Hq as [Hq1 Hq2].
  rewrite Hp1, Hq1, IH; auto.
Qed.

(** After the first two steps only [a-z] and white space are left. *)
Lemma cleaned_chars (x : string) :
  all (fun c => isspace c || is_ascii_lower c)
      (strip_non_letters (lower x)) = true.
Proof.
  apply all_impl with
    (p := fun c => (is_ascii_letter c || isspace c)
                   && negb (is_ascii_upper c)).
  - intros c H. apply andb_true_iff in H as [H1 H2].
    apply negb_true_iff in H2.
    destruct (isspace c) eqn:E; [reflexivity|].
    simpl. rewrite <- E in H1. apply letter_not_upper; assumption.
  - apply all_and; [apply strip_non_letters_kept|].
    apply strip_non_letters_all, lower_no_upper.
Qed.

Lemma word_is_word (w : string) : word w <-> is_word w = true.
Proof.
  unfold word, piece, is_word. split.
  - intros [Hne H]. apply andb_true_iff. split.
    + apply negb_true_iff, String.eqb_neq, Hne.
    + revert H. apply all_impl. intros c Hc.
      apply andb_true_iff in Hc. tauto.
  - intros H. apply andb_true_iff in H as [Hne H]. split.
    + apply String.eqb_neq, negb_true_iff, Hne.
    + revert H. apply all_impl. intros c Hc.
      rewrite (lower_not_space c Hc), Hc. reflexivity.
Qed.

Lemma word_chars (w : string) : word w -> all is_lower_or_space w = true.
Proof.
  intros [_ H]. revert H. apply all_impl. intros c Hc.
  apply andb_true_iff in Hc as [_ Hc]. apply lower_is_lower_or_space, Hc.
Qed.

Lemma join_chars (ws : list string) :
  Forall word ws -> all is_lower_or_space (join " " ws) = true.
Proof.
  induction 1 as [|w ws Hw Hws IH]; [reflexivity|].
  destruct ws as [|v ws']; [exact (word_chars w Hw)|].
  rewrite join_cons, all_app, (word_chars w Hw).
  simpl all. simpl in IH. rewrite IH. reflexivity.
Qed.

(** The parts a contraction is split into are words, and none of them is
    split again. *)
Lemma lookup_In (w : string) (tbl : list (string * list string))
    (parts : list string) :
  lookup w tbl = Some parts -> In (w, parts) tbl.
Proof.
  induction tbl as [|[k v] tbl IH]; simpl; [discriminate|].
  destruct (String.eqb_spec w k) as [->|_].
  - intros [= ->]. left. reflexivity.
  - intros H. right. apply IH, H.
Qed.

Lemma contract_words (w : string) : word w -> Forall word (contract w).
Proof.
  intros Hw. unfold contract.
  destruct (lookup w contractions) as [parts|] eqn:E.
  - apply lookup_In in E. simpl in E.
    repeat (destruct E as [E|E];
            [injection E as <- <-;
             repeat constructor; apply word_is_word; reflexivity|]).
    destruct E.
  - constructor; [exact Hw|constructor].
Qed.

Lemma contract_stable (w t : string) :
  In t (contract w) -> contract t = [t].
Proof.
  unfold contract at 1.
  destruct (lookup w contractions) as [parts|] eqn:E.
  - apply lookup_In in E. simpl in E.
    repeat (destruct E as [E|E];
            [injection E as <- <-; simpl;
             intros [<-|[<-|[]]]; reflexivity|]).
    destruct E.
  - simpl. intros [<-|[]]. unfold contract. rewrite E. reflexivity.
Qed.

Lemma flat_map_stable (ts : list string) :
  Forall (fun t => contract t = [t]) ts -> flat_map contract ts = ts.
Proof.
  induction 1 as [|t ts Ht Hts IH]; [reflexivity|].
  simpl. rewrite Ht, IH. reflexivity.
Qed.

Lemma flat_map_contract (ws : list string) :
  Forall word ws ->
  Forall word (flat_map contract ws) /\
  Forall (fun t => contract t = [t]) (flat_map contract ws).
Proof.
  induction 1 as [|w ws Hw Hws [IH1 IH2]]; [split; constructor|].
  simpl. split; apply Forall_app; split; auto.
  - apply contract_words, Hw.
  - apply Forall_forall. intros t Ht. apply (contract_stable w t Ht).
Qed.

Lemma Forall_filter {A} (P : A -> Prop) (f : A -> bool) (l : list A) :
  Forall P l -> Forall P (filter f l).
Proof.
  induction 1 as [|a l Ha Hl IH]; simpl; [constructor|].
  destruct (f a); [constructor|]; assumption.
Qed.

Lemma filter_kept {A} (f : A -> bool) (l : list A) :
  Forall (fun a => f a = true) (filter f l).
Proof.
  induction l as [|a l IH]; simpl; [constructor|].
  destruct (f a) eqn:E; [constructor|]; assumption.
Qed.

Lemma filter_all {A} (f : A -> bool) (l : list A) :
  Forall (fun a => f a = true) l -> filter f l = l.
Proof.
  induction 1 as [|a l Ha Hl IH]; simpl; [reflexivity|].
  rewrite Ha, IH. reflexivity.
Qed.

Section Preprocess.

Variable stop_words : list string.

Lemma preprocess_text_tokens (x : string) :
  preprocess_text stop_words x = join " " (tokens stop_words x).
Proof. reflexivity. Qed.

Lemma tokens_spec (x : string) :
  Forall word (tokens stop_words x) /\
  Forall (fun t => contract t = [t]) (tokens stop_words x) /\
  Forall (fun t => mem t stop_words = false) (tokens stop_words x).
Proof.
  unfold tokens, word_tokenize.
  pose proof (split_pieces is_ascii_lower _ (cleaned_chars x)) as Hsplit.
  rewrite (split_join is_ascii_lower _ Hsplit).
  destruct (flat_map_contract _ Hsplit) as [H1 H2].
  repeat split.
  - apply Forall_filter, H1.
  - apply Forall_filter, H2.
  - eapply Forall_impl; [|apply filter_kept].
    intros t Ht. apply negb_true_iff, Ht.
Qed.

Lemma tokens_join (ts : list string) :
  Forall word ts ->
  Forall (fun t => contract t = [t]) ts ->
  Forall (fun t => mem t stop_words = false) ts ->
  tokens stop_words (join " " ts) = ts.
Proof.
  intros Hw Hc Hs. unfold tokens, word_tokenize.
  rewrite (lower_fixes _ (join_chars ts Hw)).
  rewrite (strip_non_letters_fixes _ (join_chars ts Hw)).
  rewrite (split_join is_ascii_lower ts Hw).
  rewrite (split_join is_ascii_lower ts Hw).
  rewrite (flat_map_stable ts Hc).
  apply filter_all. eapply Forall_impl; [|exact Hs].
  intros t Ht. simpl. rewrite Ht. reflexivity.
Qed.

End Preprocess.

End TextFacts.
(* ===================================================================== *)
(** * Facts about running programs                                        *)
(* ===================================================================== *)

Section RunFacts.

Variable L : Library.

Lemma run_under {A B C} (T : prog L B -> prog L C)
    (p : prog L A) (f : A -> prog L B) (w : World L) :
  transparent T ->
  run (T (bind p f)) w =
  match run p w with
  | (Done a, w1) => run (T (f a)) w1
  | (Raised e, w1) => run (T (Throw e)) w1
  | (Blocked, w1) => (Blocked, w1)
  end.
Proof.
  intros HT. revert w.
  induction p as [a|e|X op k IH]; intros w; simpl; try reflexivity.
  rewrite HT. simpl.
  destruct (perform op w) as [[b w1]|]; [apply IH|reflexivity].
Qed.

Lemma run_bind {A B} (p : prog L A) (f : A -> prog L B) (w : World L) :
  run (bind p f) w =
  match run p w with
  | (Done a, w1) => run (f a) w1
  | (Raised e, w1) => (Raised e, w1)
  | (Blocked, w1) => (Blocked, w1)
  end.
Proof.
  apply (run_under (fun q => q)). intros C op k. reflexivity.
Qed.

Lemma observe_under {A B C} (T : prog L B -> prog L C)
    (p : prog L A) (f : A -> prog L B) (w : World L) :
  transparent T ->
  observe (T (bind p f)) w =
  observe p w ++
  match run p w with
  | (Done a, w1) => observe (T (f a)) w1
  | (Raised e, w1) => observe (T (Throw e)) w1
  | (Blocked, w1) => []
  end.
Proof.
  intros HT. revert w.
  induction p as [a|e|X op k IH]; intros w; simpl; try reflexivity.
  rewrite HT. simpl.
  destruct (perform op w) as [[b w1]|]; [|reflexivity].
  simpl. rewrite IH. reflexivity.
Qed.

(** ** One statement at a time *)

Lemma run_print (text : string) {B} (f : unit -> prog L B) (w : World L) :
  run (bind (print L text) f) w = run (f tt) (printed text w).
Proof. reflexivity. Qed.

Lemma run_lift {A B} (r : res A) (f : A -> prog L B) (w : World L) :
  run (bind (lift r) f) w =
  match r with
  | Ok a => run (f a) w
  | Raise e => (Raised e, w)
  end.
Proof. destruct r; reflexivity. Qed.

Lemma run_get_attr (self : nat) {B} (f : SpamClassifier L -> prog L B)
    (w : World L) :
  run (bind (act (GetAttr self)) f) w = run (f (objects w self)) w.
Proof. reflexivity. Qed.

Lemma run_set_attr (self : nat) (g : SpamClassifier L -> SpamClassifier L)
    {B} (f : unit -> prog L B) (w : World L) :
  run (bind (act (SetAttr self g)) f) w = run (f tt) (assigned self g w).
Proof. reflexivity. Qed.

Lemma run_load_sms_data {B} (f : list Row -> prog L B) (w : World L) :
  run (bind (load_sms_data L) f) w =
  match dataset w with
  | Rows df => run (f df) (printed "Loaded SMS Spam Collection dataset" w)
  | Missing =>
      (Raised (SystemExit 1),
       printed "The dataset can be found at: https://archive.ics.uci.edu/ml/datasets/sms+spam+collection"
         (printed "Please download the SMS Spam Collection dataset and place it in the current directory."
            (printed "Error: SMSSpamCollection file not found in the current directory." w)))
  | Unreadable msg => (Raised (Exception msg), w)
  end.
Proof.
  rewrite run_bind.
  assert (E : run (load_sms_data L) w =
              match dataset w with
              | Rows df =>
                  (Done df, printed "Loaded SMS Spam Collection dataset" w)
              | Missing =>
                  (Raised (SystemExit 1),
                   printed "The dataset can be found at: https://archive.ics.uci.edu/ml/datasets/sms+spam+collection"
                     (printed "Please download the SMS Spam Collection dataset and place it in the current directory."
                        (printed "Error: SMSSpamCollection file not found in the current directory." w)))
              | Unreadable msg => (Raised (Exception msg), w)
              end).
  { unfold load_sms_data. simpl. destruct (dataset w); reflexivity. }
  rewrite E. destruct (dataset w); reflexivity.
Qed.

(** ** What printing and assigning leave alone *)

Lemma write_frame (s : stream) (text : string) (w : World L) :
  training_status (write s text w) = training_status w /\
  classifier (write s text w) = classifier w /\
  (forall r, objects (write s text w) r = objects w r) /\
  next_object (write s text w) = next_object w /\
  sys_stdout (write s text w) = sys_stdout w /\
  training_lock (write s text w) = training_lock w /\
  dataset (write s text w) = dataset w /\
  threads (write s text w) = threads w.
Proof.
  revert w. induction s as [|id s IH]; intros w; simpl.
  - repeat split.
  - destruct (String.eqb _ _); [repeat split|].
    apply (IH (with_captures L _ _ w)).
Qed.

Lemma printed_frame (text : string) (w : World L) :
  training_status (printed text w) = training_status w /\
  classifier (printed text w) = classifier w /\
  (forall r, objects (printed text w) r = objects w r) /\
  next_object (printed text w) = next_object w /\
  sys_stdout (printed text w) = sys_stdout w /\
  training_lock (printed text w) = training_lock w /\
  dataset (printed text w) = dataset w /\
  threads (printed text w) = threads w.
Proof.
  unfold printed.
  destruct (write_frame (sys_stdout w) text w)
    as (H1 & H2 & H3 & H4 & H5 & H6 & H7 & H8).
  destruct (write_frame (sys_stdout w) nl (write (sys_stdout w) text w))
    as (G1 & G2 & G3 & G4 & G5 & G6 & G7 & G8).
  repeat split; try congruence.
Qed.

Lemma printed_training_status text (w : World L) :
  training_status (printed text w) = training_status w.
Proof. apply printed_frame. Qed.
Lemma printed_classifier text (w : World L) :
  classifier (printed text w) = classifier w.
Proof. apply printed_frame. Qed.
Lemma printed_objects text (w : World L) r :
  objects (printed text w) r = objects w r.
Proof. apply printed_frame. Qed.
Lemma printed_training_lock text (w : World L) :
  training_lock (printed text w) = training_lock w.
Proof. apply printed_frame. Qed.
Lemma printed_dataset text (w : World L) :
  dataset (printed text w) = dataset w.
Proof. apply printed_frame. Qed.
Lemma printed_sys_stdout text (w : World L) :
  sys_stdout (printed text w) = sys_stdout w.
Proof. apply printed_frame. Qed.
Lemma printed_threads text (w : World L) :
  threads (printed text w) = threads w.
Proof. apply printed_frame. Qed.

Lemma assigned_same self g (w : World L) :
  objects (assigned self g w) self = g (objects w self).
Proof. unfold assigned, update. simpl. rewrite Nat.eqb_refl. reflexivity. Qed.

Lemma assigned_other self g (w : World L) r :
  r <> self -> objects (assigned self g w) r = objects w r.
Proof.
  intros H. unfold assigned, update. simpl.
  apply Nat.eqb_neq in H. rewrite H. reflexivity.
Qed.

End RunFacts.
Section TrainFacts.
Variable L : Library.

Lemma agree_refl (self : nat) (w : World L) : agree self w w.
Proof. repeat split. Qed.

Lemma agree_printed (self : nat) (text : string) (w w1 : World L) :
  agree self w w1 -> agree self w (printed text w1).
Proof.
  intros (H1 & H2 & H3 & H4 & H5 & H6 & H7).
  destruct (printed_frame L text w1) as (G1 & G2 & G3 & G4 & G5 & G6 & G7 & G8).
  repeat split; try congruence.
  intros r Hr. rewrite G3. apply H1, Hr.
Qed.

Lemma agree_assigned (self : nat) g (w w1 : World L) :
  agree self w w1 -> agree self w (assigned self g w1).
Proof.
  intros (H1 & H2 & H3 & H4 & H5 & H6 & H7).
  repeat split; try assumption.
  intros r Hr. rewrite assigned_other by exact Hr. apply H1, Hr.
Qed.

Section Statements.

Context {A B : Type} (self : nat) (w : World L) (o : SpamClassifier L)
  (R : result B * World L).

Lemma ends_print (text : string) (f : unit -> prog L B) :
  ends self w o (bind (print L text) f) R -> ends self w o (f tt) R.
Proof.
  intros (w1 & Ha & Ho & H). rewrite run_print in H.
  exists (printed text w1). split; [apply agree_printed, Ha|].
  split; [rewrite printed_objects; exact Ho|exact H].
Qed.

Lemma ends_set_attr (g : SpamClassifier L -> SpamClassifier L)
    (f : unit -> prog L B) :
  ends self w o (bind (act (SetAttr self g)) f) R ->
  ends self w (g o) (f tt) R.
Proof.
  intros (w1 & Ha & Ho & H). rewrite run_set_attr in H.
  exists (assigned self g w1). split; [apply agree_assigned, Ha|].
  split; [rewrite assigned_same, Ho; reflexivity|exact H].
Qed.

Lemma ends_get_attr (f : SpamClassifier L -> prog L B) :
  ends self w o (bind (act (GetAttr self)) f) R -> ends self w o (f o) R.
Proof.
  intros (w1 & Ha & Ho & H). rewrite run_get_attr, Ho in H.
  exists w1. auto.
Qed.

Lemma ends_lift (r : res A) (f : A -> prog L B) :
  ends self w o (bind (lift r) f) R ->
  match r with
  | Ok a => ends self w o (f a) R
  | Raise e => stops self w o (Raised e) R
  end.
Proof.
  intros (w1 & Ha & Ho & H). rewrite run_lift in H.
  destruct r; exists w1; auto.
Qed.

Lemma ends_load_sms_data (f : list Row -> prog L B) :
  ends self w o (bind (load_sms_data L) f) R ->
  match dataset w with
  | Rows df => ends self w o (f df) R
  | Missing => stops self w o (Raised (SystemExit 1)) R
  | Unreadable msg => stops self w o (Raised (Exception msg)) R
  end.
Proof.
  intros (w1 & Ha & Ho & H). rewrite run_load_sms_data in H.
  assert (Hd : dataset w1 = dataset w) by apply Ha.
  rewrite Hd in H. destruct (dataset w).
  - eexists. split; [|split; [|symmetry; exact H]].
    + repeat apply agree_printed. exact Ha.
    + rewrite !printed_objects. exact Ho.
  - exists w1. auto.
  - eexists. split; [|split; [|exact H]].
    + apply agree_printed, Ha.
    + rewrite printed_objects. exact Ho.
Qed.

Lemma ends_ret (b : B) :
  ends self w o (Ret b) R -> stops self w o (Done b) R.
Proof. intros (w1 & Ha & Ho & H). exists w1. auto. Qed.

End Statements.

(** One statement of the method followed in hypothesis [H]. *)
Ltac statement H :=
  first
    [ apply ends_print in H
    | apply ends_set_attr in H
    | apply ends_load_sms_data in H
    | apply ends_get_attr in H
    | apply ends_lift in H
    | apply ends_ret in H ];
  cbv beta iota in H;
  cbn [not_none vectorizer nb_classifier lr_classifier is_trained
       set_vectorizer set_nb_classifier set_lr_classifier set_is_trained]
    in H.

(** The call the run is waiting on: each of its outcomes. *)
Ltac branch H :=
  lazymatch type of H with
  | match ?r with _ => _ end => destruct r eqn:?; cbv beta iota in H
  | ends _ _ _ (match ?p with _ => _ end) _ =>
      destruct p; cbv beta iota in H
  end.

Ltac walk H := repeat first [ statement H | branch H ].

(** What a run of [train] does to the state, by the way it ends. *)
Lemma train_run (w w' : World L) (self : nat) (r : result (Q * Q)) :
  run (SpamClassifier_train L self) w = (r, w') ->
  let o := objects w self in
  let o' := objects w' self in
  agree self w w' /\
  match r with
  | Done _ =>
      exists v nb lr,
        o' = {| vectorizer := Some v; nb_classifier := Some nb;
                lr_classifier := Some lr; is_trained := true |}
  | Raised e =>
      is_trained o' = is_trained o /\
      (o' = o \/
       (exists v, o' = set_vectorizer (Some v) o) \/
       (exists v nb,
          o' = set_nb_classifier (Some nb) (set_vectorizer (Some v) o)) \/
       (exists v nb lr,
          o' = set_lr_classifier (Some lr)
                 (set_nb_classifier (Some nb)
                    (set_vectorizer (Some v) o)))) /\
      ((forall df, dataset w = Rows df ->
          exists e', apply_preprocess_text L (map snd df) = Raise e') ->
       o' = o)
  | Blocked => False
  end.
Proof.
  intros H. cbv zeta.
  assert (E : ends self w (objects w self) (SpamClassifier_train L self) (r, w')).
  { exists w. split; [apply agree_refl|]. split; [reflexivity|exact H]. }
  clear H. unfold SpamClassifier_train in E.
  walk E.
  all: destruct E as (w1 & Ha & Ho & E);
    apply pair_equal_spec in E; destruct E as [-> ->];
    (split; [exact Ha|]); rewrite Ho.
  all: try (do 3 eexists; reflexivity).
  all: split; [reflexivity|split].
  all: try (left; reflexivity).
  all: try (right; left; eexists; reflexivity).
  all: try (right; right; left; do 2 eexists; reflexivity).
  all: try (right; right; right; do 3 eexists; reflexivity).
  all: try reflexivity.
  all: intros Hearly;
    first
      [ reflexivity
      | destruct (Hearly _ eq_refl) as [e' He']; congruence ].
Qed.

(** [train] returns or raises what the pipeline gives for the dataset
    file, whatever the state it starts from, and a run that returns
    leaves in [self] the estimators the pipeline fitted. *)
Lemma train_as_pipeline (w : World L) (self : nat) :
  exists w',
    run (SpamClassifier_train L self) w = (train_outcome L (dataset w), w') /\
    match train_pipeline L (dataset w) with
    | Ok (v, nb, lr, _) =>
        objects w' self =
          {| vectorizer := Some v; nb_classifier := Some nb;
             lr_classifier := Some lr; is_trained := true |}
    | Raise _ => True
    end.
Proof.
  assert (E : ends self w (objects w self) (SpamClassifier_train L self)
                (run (SpamClassifier_train L self) w)).
  { exists w. split; [apply agree_refl|]. split; reflexivity. }
  revert E. generalize (run (SpamClassifier_train L self) w). intros R E.
  unfold SpamClassifier_train in E.
  walk E.
  all: destruct E as (w1 & Ha & Ho & ->); exists w1; rewrite Ho;
    unfold train_outcome, train_pipeline;
    repeat match goal with
           | H : ?lhs = _ |- context [?lhs] =>
               rewrite H; cbn [res_bind fst snd]
           end.
  all: first [ split; reflexivity | exfalso; congruence ].
Qed.

End TrainFacts.

Section StatusFacts.
Variable L : Library.

Lemma only_bind (P : forall B, action L B -> Prop) {A B}
    (p : prog L A) (f : A -> prog L B) :
  only P p -> (forall a, only P (f a)) -> only P (bind p f).
Proof.
  intros Hp Hf. induction p as [a|e|X op k IH]; simpl; auto.
  destruct Hp as [Hop Hk]. split; [exact Hop|].
  intros b. apply IH, Hk.
Qed.

Lemma only_lift (P : forall B, action L B -> Prop) {A} (r : res A) :
  only P (lift r).
Proof. destruct r; exact I. Qed.

Lemma only_act (P : forall B, action L B -> Prop) {B} (op : action L B) :
  P B op -> only P (act op).
Proof. intros H. split; [exact H|]. intros b. exact I. Qed.

Lemma print_keeps_status (text : string) :
  only keeps_status (print L text).
Proof. repeat split. Qed.

Lemma load_sms_data_keeps_status : only keeps_status (load_sms_data L).
Proof. split; [exact I|]. intros []; repeat split. Qed.

Lemma train_keeps_status (self : nat) :
  only keeps_status (SpamClassifier_train L self).
Proof.
  unfold SpamClassifier_train.
  repeat first
    [ apply only_bind;
      [ first [ apply print_keeps_status
              | apply load_sms_data_keeps_status
              | apply only_lift
              | apply only_act; exact I ]
      | intros ? ]
    | match goal with
      | |- only _ (match ?x with _ => _ end) => destruct x
      end ].
  exact I.
Qed.

Lemma perform_keeps_status {B} (op : action L B) (w w' : World L) (b : B) :
  keeps_status B op -> perform op w = Some (b, w') ->
  training_status w' = training_status w.
Proof.
  destruct op; simpl; intros Hop H; try contradiction;
    try (injection H as <- <-; reflexivity).
  - destruct (training_lock w); [discriminate|].
    injection H as <- <-. reflexivity.
  - injection H as <- <-. apply write_frame.
Qed.

Lemma observe_keeps_status {A} (p : prog L A) (w : World L) :
  only keeps_status p ->
  Forall (fun w' => training_status w' = training_status w) (observe p w) /\
  training_status (snd (run p w)) = training_status w.
Proof.
  revert w. induction p as [a|e|X op k IH]; intros w Hp; simpl;
    try (split; [constructor|reflexivity]).
  destruct Hp as [Hop Hk].
  destruct (perform op w) as [[b w1]|] eqn:E;
    [|split; [constructor|reflexivity]].
  pose proof (perform_keeps_status op w w1 b Hop E) as E1.
  destruct (IH b w1 (Hk b)) as [IH1 IH2].
  split; [constructor; [exact E1|]|congruence].
  eapply Forall_impl; [|exact IH1]. simpl. congruence.
Qed.

End StatusFacts.
Section ThreadFacts.
Variable L : Library.

Lemma observe_try {A B} (p : prog L A) (f : A -> prog L B)
    (h : string -> prog L B) (q : prog L unit) (w : World L) :
  observe (try_finally (try_except (bind p f) h) q) w =
  observe p w ++
  match run p w with
  | (Done a, w1) => observe (try_finally (try_except (f a) h) q) w1
  | (Raised e, w1) => observe (try_finally (try_except (Throw e) h) q) w1
  | (Blocked, w1) => []
  end.
Proof.
  apply (observe_under L (fun p => try_finally (try_except p h) q)).
  intros C op k. reflexivity.
Qed.

Lemma run_try {A B} (p : prog L A) (f : A -> prog L B)
    (h : string -> prog L B) (q : prog L unit) (w : World L) :
  run (try_finally (try_except (bind p f) h) q) w =
  match run p w with
  | (Done a, w1) => run (try_finally (try_except (f a) h) q) w1
  | (Raised e, w1) => run (try_finally (try_except (Throw e) h) q) w1
  | (Blocked, w1) => (Blocked, w1)
  end.
Proof.
  apply (run_under L (fun p => try_finally (try_except p h) q)).
  intros C op k. reflexivity.
Qed.

Lemma progress_trace_constant (s : Status.t) (ws : list (World L)) :
  Forall (fun w' => training_status w' = s) ws ->
  progress_trace ws = repeat (Status.progress s) (List.length ws).
Proof.
  induction 1 as [|w' ws Hw Hws IH]; [reflexivity|].
  simpl. rewrite Hw, <- IH. reflexivity.
Qed.

Lemma perform_calm {B} (op : action L B) (w : World L) :
  calm B op ->
  exists b w1,
    perform op w = Some (b, w1) /\ classifier w1 = classifier w /\
    training_lock w1 = training_lock w /\
    training_status w1 = training_status w.
Proof.
  destruct op; simpl; intros []; eexists; eexists;
    (split; [reflexivity|]); try (repeat split; reflexivity).
  destruct (write_frame L s text w) as (H1 & H2 & _ & _ & _ & H6 & _).
  auto.
Qed.

Section Statements.

Context {A : Type} (c : nat) (l : bool) (s : Status.t) (t : list Z)
  (R : result A * World L).

Lemma follows_set_status (g : Status.t -> Status.t)
    (k : unit -> prog L A) :
  follows c l s (Act (SetStatus g) k) t R ->
  exists t', t = Status.progress (g s) :: t' /\
             follows c l (g s) (k tt) t' R.
Proof.
  intros (w & Hc & Hl & Hs & Ht & HR). simpl in Ht, HR.
  rewrite Hs in Ht, HR.
  eexists. split; [symmetry; exact Ht|].
  eexists. repeat split; try eassumption; reflexivity.
Qed.

Lemma follows_calm {B} (op : action L B) (k : B -> prog L A) :
  calm B op ->
  follows c l s (Act op k) t R ->
  exists b t', t = Status.progress s :: t' /\ follows c l s (k b) t' R.
Proof.
  intros Hop (w & Hc & Hl & Hs & Ht & HR).
  destruct (perform_calm op w Hop) as (b & w1 & E & Hc1 & Hl1 & Hs1).
  simpl in Ht, HR. rewrite E in Ht, HR. simpl in Ht.
  rewrite Hs1, Hs in Ht.
  exists b. eexists. split; [symmetry; exact Ht|].
  exists w1. repeat split; congruence.
Qed.

Lemma follows_get_classifier (k : nat -> prog L A) :
  follows c l s (Act GetClassifier k) t R ->
  exists t', t = Status.progress s :: t' /\ follows c l s (k c) t' R.
Proof.
  intros (w & Hc & Hl & Hs & Ht & HR). simpl in Ht, HR.
  rewrite Hs, Hc in Ht. rewrite Hc in HR.
  eexists. split; [symmetry; exact Ht|].
  exists w. repeat split; assumption.
Qed.

Lemma follows_release (k : unit -> prog L A) :
  follows c l s (Act Release k) t R ->
  exists t', t = Status.progress s :: t' /\ follows c false s (k tt) t' R.
Proof.
  intros (w & Hc & Hl & Hs & Ht & HR). simpl in Ht, HR.
  rewrite Hs in Ht.
  eexists. split; [symmetry; exact Ht|].
  eexists. repeat split; try eassumption; reflexivity.
Qed.

Lemma follows_ret (a : A) :
  follows c l s (Ret a) t R ->
  t = [] /\ fst R = Done a /\ training_status (snd R) = s.
Proof.
  intros (w & Hc & Hl & Hs & Ht & HR). simpl in Ht, HR.
  subst. auto.
Qed.

Lemma follows_throw (e : exn) :
  follows c l s (Throw e) t R ->
  t = [] /\ fst R = Raised e /\ training_status (snd R) = s.
Proof.
  intros (w & Hc & Hl & Hs & Ht & HR). simpl in Ht, HR.
  subst. auto.
Qed.

End Statements.

Lemma follows_acquire {A} (c : nat) (s : Status.t) (t : list Z)
    (R : result A * World L) (k : unit -> prog L A) :
  follows c false s (Act Acquire k) t R ->
  exists t', t = Status.progress s :: t' /\ follows c true s (k tt) t' R.
Proof.
  intros (w & Hc & Hl & Hs & Ht & HR). simpl in Ht, HR.
  rewrite Hl in Ht, HR. simpl in Ht. rewrite Hs in Ht.
  eexists. split; [symmetry; exact Ht|].
  eexists. repeat split; try eassumption; reflexivity.
Qed.

(** A call, inside [try], of a method that does not write
    [training_status]. *)
Lemma follows_call {A B} (c : nat) (l : bool) (s : Status.t) (t : list Z)
    (R : result B * World L) (p : prog L A) (f : A -> prog L B)
    (h : string -> prog L B) (q : prog L unit) :
  only keeps_status p ->
  follows c l s (try_finally (try_except (bind p f) h) q) t R ->
  exists n t',
    t = repeat (Status.progress s) n ++ t' /\
    ((exists a w1 w2 c' l',
        run p w1 = (Done a, w2) /\
        follows c' l' s (try_finally (try_except (f a) h) q) t' R) \/
     (exists e c' l',
        follows c' l' s (try_finally (try_except (Throw e) h) q) t' R) \/
     (t' = [] /\ fst R = Blocked)).
Proof.
  intros Hp (w & Hc & Hl & Hs & Ht & HR).
  rewrite observe_try in Ht. rewrite run_try in HR.
  destruct (observe_keeps_status L p w Hp) as [Hmid Hend].
  unfold progress_trace in Ht. rewrite map_app in Ht.
  fold (progress_trace (observe p w)) in Ht.
  rewrite (progress_trace_constant _ _ Hmid), Hs in Ht.
  exists (List.length (observe p w)). eexists.
  split; [symmetry; exact Ht|].
  destruct (run p w) as [[a|e|] w1] eqn:E; simpl in Hend.
  - left. exists a, w, w1, (classifier w1), (training_lock w1).
    split; [exact E|]. exists w1. repeat split; congruence.
  - right. left. exists e, (classifier w1), (training_lock w1).
    exists w1. repeat split; congruence.
  - right. right. subst R. auto.
Qed.

Lemma HdRel_app_cons (a c : Z) (pre post post' : list Z) :
  HdRel Z.le a (pre ++ c :: post) -> HdRel Z.le a (pre ++ c :: post').
Proof.
  destruct pre; simpl; intros H; inversion H; constructor; assumption.
Qed.

Lemma Sorted_plateau (c : Z) (n : nat) (pre post : list Z) :
  Sorted Z.le (pre ++ c :: post) ->
  Sorted Z.le (pre ++ c :: repeat c n ++ post).
Proof.
  induction pre as [|a pre IH]; simpl; intros H.
  - induction n as [|n IHn]; [exact H|].
    simpl. constructor; [exact IHn|]. constructor. apply Z.le_refl.
  - inversion H as [|? ? Hs Hh]; subst.
    constructor; [apply IH, Hs|].
    eapply HdRel_app_cons, Hh.
Qed.

Lemma In_plateau (x c : Z) (n : nat) (pre post : list Z) :
  In x (pre ++ c :: repeat c n ++ post) -> In x (pre ++ c :: post).
Proof.
  rewrite !in_app_iff. simpl. rewrite in_app_iff.
  intros [H|[H|[H|H]]]; auto.
  apply repeat_spec in H. auto.
Qed.

(** One statement of the thread followed in hypothesis [H]; the progress
    value it leaves is put in front of the trace. *)
Ltac statement H :=
  let t' := fresh "t" in
  first
    [ apply follows_set_status in H; destruct H as (t' & -> & H)
    | apply follows_get_classifier in H; destruct H as (t' & -> & H)
    | apply follows_acquire in H; destruct H as (t' & -> & H)
    | apply follows_release in H; destruct H as (t' & -> & H)
    | apply follows_calm in H; [destruct H as (? & t' & -> & H)|exact I]
    | apply follows_ret in H; destruct H as (-> & ? & ?)
    | apply follows_throw in H; destruct H as (-> & ? & ?) ];
  cbv beta iota in *;
  cbn [bind act try_except try_finally
       Status.progress Status.error Status.is_trained Status.current_step
       Status.set_is_training Status.set_is_trained Status.set_progress
       Status.set_current_step Status.set_logs Status.set_error
       Status.set_metrics Status.append_log] in *.

Ltac sorted_concrete :=
  repeat first
    [ apply Sorted_nil | apply HdRel_nil
    | apply Sorted_cons | apply HdRel_cons ];
  first [ discriminate | apply Z.le_refl ].

(** C9.  Within one training run (a thread started with the lock
    free), the values of [progress] after each action of the run are:
    four times the value the run found (up to and including
    [is_training = True]), then 0, and from there on a non-decreasing
    sequence.  It holds 100 only if the run ends normally with
    [is_trained] true, no error, the final step reported and the
    training procedure having returned: a run whose training procedure
    raises never sets 100. *)
Theorem thread_progress (w : World L) :
  training_lock w = false ->
  let t := progress_trace (observe (train_model_thread L) w) in
  let ending := run (train_model_thread L) w in
  firstn 4 t = repeat (Status.progress (training_status w)) 4 /\
  (exists rest, skipn 4 t = 0%Z :: rest) /\
  Sorted Z.le (skipn 4 t) /\
  (In 100%Z (skipn 4 t) ->
   fst ending = Done tt /\
   Status.progress (training_status (snd ending)) = 100%Z /\
   Status.is_trained (training_status (snd ending)) = true /\
   Status.error (training_status (snd ending)) = None /\
   Status.current_step (training_status (snd ending)) =
     "Training completed successfully!" /\
   exists w1 accuracies w2,
     run (SpamClassifier_train L (classifier w)) w1 = (Done accuracies, w2)).
Proof.
  intros Hlock. cbv zeta.
  assert (H : follows (classifier w) false (training_status w)
                (train_model_thread L)
                (progress_trace (observe (train_model_thread L) w))
                (run (train_model_thread L) w)).
  { exists w. repeat split. exact Hlock. }
  revert H.
  generalize (progress_trace (observe (train_model_thread L) w)).
  generalize (run (train_model_thread L) w).
  unfold train_model_thread.
  generalize (train_keeps_status L).
  generalize (SpamClassifier_train L). intros tr Htr R t H.
  cbn [bind act try_except try_finally with_lock] in H.
  repeat statement H.
  apply follows_call in H; [|apply Htr].
  destruct H as (n & t' & -> & H).
  cbn [Status.progress Status.set_progress] in *.
  split; [reflexivity|]. split; [eexists; reflexivity|].
  cbn [skipn].
  destruct H as [(a & w1 & w2 & c' & l' & Erun & H)
                |[(e & c' & l' & H)|(-> & Hblocked)]].
  - (* the training procedure returned *)
    destruct a as [nb_accuracy lr_accuracy].
    repeat statement H.
    split.
    + apply (Sorted_plateau 70 n
               [0; 0; 0; 0; 0; 0; 10; 10; 10; 30; 30; 30; 50; 50; 50; 70]%Z).
      sorted_concrete.
    + intros _.
      match goal with
      | Hs : training_status (snd R) = _ |- _ => rewrite Hs
      end.
      repeat split; try assumption.
      exists w1, (nb_accuracy, lr_accuracy), w2. exact Erun.
  - (* the training procedure raised *)
    destruct e as [msg|code]; repeat statement H.
    all: split;
      [ apply (Sorted_plateau 70 n
                 [0; 0; 0; 0; 0; 0; 10; 10; 10; 30; 30; 30; 50; 50; 50; 70]%Z);
        sorted_concrete
      | intros HIn; exfalso;
        apply (In_plateau 100 70 n
                 [0; 0; 0; 0; 0; 0; 10; 10; 10; 30; 30; 30; 50; 50; 50; 70]%Z)
          in HIn;
        cbn [app In] in HIn;
        repeat (destruct HIn as [HIn|HIn]; [discriminate HIn|]);
        exact HIn ].
  - (* the training procedure waits for ever *)
    split.
    + apply (Sorted_plateau 70 n
               [0; 0; 0; 0; 0; 0; 10; 10; 10; 30; 30; 30; 50; 50; 50; 70]%Z).
      sorted_concrete.
    + intros HIn; exfalso.
      apply (In_plateau 100 70 n
               [0; 0; 0; 0; 0; 0; 10; 10; 10; 30; 30; 30; 50; 50; 50; 70]%Z)
        in HIn.
      cbn [app In] in HIn.
      repeat (destruct HIn as [HIn|HIn]; [discriminate HIn|]).
      exact HIn.
Qed.
End ThreadFacts.

Section OutcomeFacts.

Variable L : Library.

(** The state reached in [HR] is the one the assertion speaks of. *)
Ltac resume HR :=
  match type of HR with
  | run _ ?w' = _ => exists w'
  end;
  repeat split; simpl; solve [assumption | congruence].

Section Statements.

Context {A : Type} (c : nat) (m : SpamClassifier L) (l : bool)
  (o : stream) (d : file) (s : Status.t) (R : result A * World L).

Lemma tracks_set_status (g : Status.t -> Status.t)
    (k : unit -> prog L A) :
  tracks c m l o d s (Act (SetStatus g) k) R ->
  tracks c m l o d (g s) (k tt) R.
Proof.
  intros (w & Hc & Hm & Hl & Ho & Hd & Hs & HR). simpl in HR.
  resume HR.
Qed.

Lemma tracks_new_log_capture (k : stream -> prog L A) :
  tracks c m l o d s (Act NewLogCapture k) R ->
  exists id, tracks c m l o d s (k (Capture id o)) R.
Proof.
  intros (w & Hc & Hm & Hl & Ho & Hd & Hs & HR). simpl in HR.
  rewrite Ho in HR.
  match type of HR with
  | run (k (Capture ?id _)) ?w' = _ => exists id, w'
  end.
  repeat split; simpl; solve [assumption | congruence].
Qed.

Lemma tracks_set_stdout (o' : stream) (k : unit -> prog L A) :
  tracks c m l o d s (Act (SetStdout o') k) R ->
  tracks c m l o' d s (k tt) R.
Proof.
  intros (w & Hc & Hm & Hl & Ho & Hd & Hs & HR). simpl in HR.
  resume HR.
Qed.

Lemma tracks_sleep (k : unit -> prog L A) :
  tracks c m l o d s (Act Sleep k) R -> tracks c m l o d s (k tt) R.
Proof.
  intros (w & Hc & Hm & Hl & Ho & Hd & Hs & HR). simpl in HR.
  resume HR.
Qed.

Lemma tracks_get_logs (x : stream) (k : list string -> prog L A) :
  tracks c m l o d s (Act (GetLogs x) k) R ->
  exists captured, tracks c m l o d s (k captured) R.
Proof.
  intros (w & Hc & Hm & Hl & Ho & Hd & Hs & HR). simpl in HR.
  match type of HR with
  | run (k ?logs) ?w' = _ => exists logs, w'
  end.
  repeat split; simpl; solve [assumption | congruence].
Qed.

Lemma tracks_get_classifier (k : nat -> prog L A) :
  tracks c m l o d s (Act GetClassifier k) R ->
  tracks c m l o d s (k c) R.
Proof.
  intros (w & Hc & Hm & Hl & Ho & Hd & Hs & HR). simpl in HR.
  rewrite Hc in HR. resume HR.
Qed.

Lemma tracks_release (k : unit -> prog L A) :
  tracks c m l o d s (Act Release k) R ->
  tracks c m false o d s (k tt) R.
Proof.
  intros (w & Hc & Hm & Hl & Ho & Hd & Hs & HR). simpl in HR.
  resume HR.
Qed.

Lemma tracks_ret (a : A) :
  tracks c m l o d s (Ret a) R ->
  fst R = Done a /\ classifier (snd R) = c /\ objects (snd R) c = m /\
  training_lock (snd R) = l /\
  sys_stdout (snd R) = o /\ training_status (snd R) = s.
Proof.
  intros (w & Hc & Hm & Hl & Ho & Hd & Hs & HR). simpl in HR. subst R.
  repeat split; assumption.
Qed.

Lemma tracks_throw (e : exn) :
  tracks c m l o d s (Throw e) R ->
  fst R = Raised e /\ classifier (snd R) = c /\ objects (snd R) c = m /\
  training_lock (snd R) = l /\
  sys_stdout (snd R) = o /\ training_status (snd R) = s.
Proof.
  intros (w & Hc & Hm & Hl & Ho & Hd & Hs & HR). simpl in HR. subst R.
  repeat split; assumption.
Qed.

End Statements.

Lemma tracks_acquire {A} (c : nat) (m : SpamClassifier L) (o : stream)
    (d : file) (s : Status.t) (R : result A * World L)
    (k : unit -> prog L A) :
  tracks c m false o d s (Act Acquire k) R ->
  tracks c m true o d s (k tt) R.
Proof.
  intros (w & Hc & Hm & Hl & Ho & Hd & Hs & HR). simpl in HR.
  rewrite Hl in HR. simpl in HR. resume HR.
Qed.

(** The call of [classifier.train()] inside the [try] of the thread. *)
Lemma tracks_train {B} (c : nat) (m : SpamClassifier L) (l : bool)
    (o : stream) (d : file) (s : Status.t) (R : result B * World L)
    (f : Q * Q -> prog L B) (h : string -> prog L B) (q : prog L unit) :
  tracks c m l o d s
    (try_finally (try_except (bind (SpamClassifier_train L c) f) h) q)
    R ->
  match train_pipeline L d with
  | Ok (v, nb, lr, accuracies) =>
      tracks c
        {| vectorizer := Some v; nb_classifier := Some nb;
           lr_classifier := Some lr; is_trained := true |}
        l o d s (try_finally (try_except (f accuracies) h) q) R
  | Raise e =>
      exists m',
        is_trained m' = is_trained m /\
        tracks c m' l o d s (try_finally (try_except (Throw e) h) q) R
  end.
Proof.
  intros (w & Hc & Hm & Hl & Ho & Hd & Hs & HR).
  rewrite run_try in HR.
  destruct (train_as_pipeline L w c) as (w1 & Hrun & Hobj).
  destruct (train_run L w w1 c _ Hrun)
    as [(_ & G1 & G2 & G3 & _ & G5 & G6) Hcase].
  rewrite Hrun in HR. unfold train_outcome in HR, Hcase.
  rewrite <- Hd.
  destruct (train_pipeline L (dataset w)) as [[[[v nb] lr] a]|e].
  - exists w1. repeat split; congruence.
  - exists (objects w1 c). destruct Hcase as (Ht & _).
    split; [congruence|].
    exists w1. repeat split; congruence.
Qed.

(** One statement of the thread followed in hypothesis [H]. *)
Ltac statement H :=
  first
    [ apply tracks_set_status in H
    | apply tracks_get_classifier in H
    | apply tracks_acquire in H
    | apply tracks_release in H
    | apply tracks_sleep in H
    | apply tracks_set_stdout in H
    | apply tracks_new_log_capture in H; destruct H as (? & H)
    | apply tracks_get_logs in H; destruct H as (? & H) ];
  cbv beta iota in H;
  cbn [bind act try_except try_finally] in H.

(** How a training thread ends, by what the pipeline gives for the
    dataset file. *)
Lemma thread_run (w : World L) :
  training_lock w = false ->
  let ending := run (train_model_thread L) w in
  let s0 := training_status w in
  let s := training_status (snd ending) in
  let m0 := objects w (classifier w) in
  let m := objects (snd ending) (classifier w) in
  (training_lock (snd ending) = false /\
   sys_stdout (snd ending) = sys_stdout w /\
   classifier (snd ending) = classifier w /\
   Status.is_training s = false) /\
  match train_pipeline L (dataset w) with
  | Ok (v, nb, lr, (nb_accuracy, lr_accuracy)) =>
      fst ending = Done tt /\
      m = {| vectorizer := Some v; nb_classifier := Some nb;
             lr_classifier := Some lr; is_trained := true |} /\
      Status.is_trained s = true /\
      Status.progress s = 100%Z /\
      Status.current_step s = "Training completed successfully!" /\
      Status.error s = None /\
      Status.metrics s =
        [("naive_bayes_accuracy", nb_accuracy);
         ("logistic_regression_accuracy", lr_accuracy)]
  | Raise (Exception msg) =>
      fst ending = Done tt /\
      is_trained m = is_trained m0 /\
      Status.is_trained s = Status.is_trained s0 /\
      Status.progress s = 70%Z /\
      Status.current_step s = ("Error: " ++ msg)%string /\
      Status.error s = Some msg /\
      Status.metrics s = Status.metrics s0 /\
      exists captured,
        Status.logs s =
          captured ++ [("ERROR: " ++ format_exc L (Exception msg))%string]
  | Raise (SystemExit code) =>
      fst ending = Raised (SystemExit code) /\
      is_trained m = is_trained m0 /\
      Status.is_trained s = Status.is_trained s0 /\
      Status.progress s = 70%Z /\
      Status.current_step s = "Training Naive Bayes classifier..." /\
      Status.error s = None /\
      Status.metrics s = Status.metrics s0 /\
      Status.logs s = []
  end.
Proof.
  intros Hlock. cbv zeta.
  assert (H : tracks (classifier w) (objects w (classifier w)) false
                (sys_stdout w) (dataset w) (training_status w)
                (train_model_thread L) (run (train_model_thread L) w)).
  { exists w. repeat split. exact Hlock. }
  revert H. generalize (run (train_model_thread L) w). intros R H.
  unfold train_model_thread in H.
  cbn [bind act try_except try_finally with_lock] in H.
  repeat statement H.
  apply tracks_train in H.
  destruct (train_pipeline L (dataset w))
    as [[[[v nb] lr] [nb_accuracy lr_accuracy]]|[msg|code]].
  - cbv beta iota in H. cbn [bind act try_except try_finally] in H.
    repeat statement H.
    apply tracks_ret in H. destruct H as (H1 & H2 & H3 & H4 & H5 & H6).
    rewrite H6. repeat split; assumption.
  - destruct H as (m' & Hm' & H).
    cbv beta iota in H. cbn [bind act try_except try_finally] in H.
    repeat statement H.
    apply tracks_ret in H. destruct H as (H1 & H2 & H3 & H4 & H5 & H6).
    rewrite H6, H3. repeat split; try assumption.
    eexists. reflexivity.
  - destruct H as (m' & Hm' & H).
    cbv beta iota in H. cbn [bind act try_except try_finally] in H.
    repeat statement H.
    apply tracks_throw in H. destruct H as (H1 & H2 & H3 & H4 & H5 & H6).
    rewrite H6, H3. repeat split; assumption.
Qed.

End OutcomeFacts.

Section HandlerFacts.
Variable L : Library.

(** [predict] on the classifier object: one outcome, and no change of
    state. *)
Lemma run_SpamClassifier_predict (self : nat) (msg : string) (w : World L) :
  run (SpamClassifier_predict L self msg) w =
  (if negb (is_trained (objects w self))
   then Raised (Exception "Model must be trained first")
   else
     match classify_sms_real_time L msg (vectorizer (objects w self))
             (nb_classifier (objects w self))
             (lr_classifier (objects w self)) with
     | Ok r => Done r
     | Raise e => Raised e
     end,
   w).
Proof.
  unfold SpamClassifier_predict. simpl.
  destruct (negb (is_trained (objects w self))); [reflexivity|].
  simpl. destruct (classify_sms_real_time _ _ _ _ _); reflexivity.
Qed.

Lemma run_predict_each (msgs : list string) (acc : list PredictionResult)
    (w w' : World L) (r : result (list PredictionResult)) :
  run (predict_each L msgs acc) w = (r, w') ->
  w' = w /\
  match r with
  | Done results =>
      exists new,
        results = acc ++ new /\
        Forall2
          (fun msg res =>
             run (SpamClassifier_predict L (classifier w) msg) w =
             (Done res, w))
          msgs new
  | Raised e =>
      exists msg,
        In msg msgs /\
        run (SpamClassifier_predict L (classifier w) msg) w = (Raised e, w)
  | Blocked => False
  end.
Proof.
  revert acc. induction msgs as [|msg msgs IH]; intros acc.
  - simpl. intros [= <- <-]. split; [reflexivity|].
    exists []. rewrite app_nil_r. split; [reflexivity|constructor].
  - cbn [predict_each]. rewrite run_bind. cbn [run act perform].
    rewrite run_bind.
    pose proof (run_SpamClassifier_predict (classifier w) msg w) as E.
    destruct (run (SpamClassifier_predict L (classifier w) msg) w)
      as [[res|e|] w1] eqn:Erun.
    + assert (w1 = w) as ->.
      { destruct (negb _) in E; [congruence|].
        destruct (classify_sms_real_time _ _ _ _ _) in E; congruence. }
      intros H. destruct (IH _ H) as [-> Hr]. split; [reflexivity|].
      destruct r as [results|e|]; [| |exact Hr].
      * destruct Hr as (new & -> & Hnew). exists (res :: new).
        rewrite <- app_assoc. split; [reflexivity|].
        constructor; [exact Erun|exact Hnew].
      * destruct Hr as (m & Hm & Hr). exists m.
        split; [right; exact Hm|exact Hr].
    + assert (w1 = w) as ->.
      { destruct (negb _) in E; [congruence|].
        destruct (classify_sms_real_time _ _ _ _ _) in E; congruence. }
      intros [= <- <-]. split; [reflexivity|]. exists msg.
      split; [left; reflexivity|exact Erun].
    + exfalso. destruct (negb _) in E; [congruence|].
      destruct (classify_sms_real_time _ _ _ _ _) in E; congruence.
Qed.

(** Python's [max] returns an element of the sequence that no element
    exceeds. *)
Lemma max_from_spec (seq : list Q) (best : Q) :
  In (max_from best seq) (best :: seq) /\
  forall q, In q (best :: seq) -> (q <= max_from best seq)%Q.
Proof.
  revert best. induction seq as [|x seq IH]; intros best; simpl.
  - split; [left; reflexivity|].
    intros q [<-|[]]. apply Qle_refl.
  - destruct (Qle_bool x best) eqn:E.
    + destruct (IH best) as [H1 H2]. split.
      * destruct H1 as [H1|H1]; [left; exact H1|right; right; exact H1].
      * intros q [<-|[<-|Hq]].
        -- apply H2. left. reflexivity.
        -- apply Qle_trans with best; [apply Qle_bool_iff, E|].
           apply H2. left. reflexivity.
        -- apply H2. right. exact Hq.
    + destruct (IH x) as [H1 H2]. split.
      * right. exact H1.
      * assert (Hlt : (best <= x)%Q).
        { apply Qlt_le_weak, Qnot_le_lt. intros Hle.
          apply Qle_bool_iff in Hle. congruence. }
        intros q [<-|[<-|Hq]].
        -- apply Qle_trans with x; [exact Hlt|].
           apply H2. left. reflexivity.
        -- apply H2. left. reflexivity.
        -- apply H2. right. exact Hq.
Qed.

Lemma py_max_spec (seq : list Q) (m : Q) :
  py_max seq = Ok m ->
  In m seq /\ forall q, In q seq -> (q <= m)%Q.
Proof.
  destruct seq as [|x seq]; simpl; [discriminate|].
  intros [= <-]. apply max_from_spec.
Qed.

End HandlerFacts.

(* ===================================================================== *)
(** * The claims                                                          *)
(* ===================================================================== *)

Lemma update_same {A} (store : nat -> A) (r : nat) (a : A) :
  update store r a r = a.
Proof. unfold update. rewrite Nat.eqb_refl. reflexivity. Qed.

(** What [POST /api/train] does once a model is trained: it answers and
    returns, leaving the state, the list of threads included, as it is. *)
Lemma train_when_trained (L : Library) (w : World L) :
  Status.is_training (training_status w) = false ->
  Status.is_trained (training_status w) = true ->
  run (train L) w =
  (Done (Message "Model already trained. Retraining...", 200%Z), w).
Proof.
  intros H1 H2. unfold train. simpl. rewrite H1. simpl. rewrite H2.
  reflexivity.
Qed.

(** C1 (the code departs from the claim).  In the state a completed
    training run leaves ([is_trained] true, [is_training] false),
    [POST /api/train] answers 200 with the retrain message and returns at
    once: the state is unchanged and there is still no thread, so no
    training run was started.  From the idle state the same request does
    start one. *)
Theorem train_after_completion_starts_nothing :
  Status.is_trained (training_status Scenario.completed) = true /\
  Status.is_training (training_status Scenario.completed) = false /\
  run (train Scenario.L) Scenario.completed =
    (Done (Message "Model already trained. Retraining...", 200%Z),
     Scenario.completed) /\
  map running (threads (snd (run (train Scenario.L) Scenario.completed))) = [] /\
  map running (threads (snd (run (train Scenario.L) Scenario.idle))) = [true].
Proof.
  assert (H1 : Status.is_trained (training_status Scenario.completed) = true)
    by (vm_compute; reflexivity).
  assert (H2 : Status.is_training (training_status Scenario.completed) = false)
    by (vm_compute; reflexivity).
  split; [exact H1|]. split; [exact H2|].
  rewrite (train_when_trained _ _ H2 H1).
  split; [reflexivity|]. split; vm_compute; reflexivity.
Qed.

(** [SpamClassifier.predict] on an object that is not trained. *)
Lemma SpamClassifier_predict_untrained (L : Library) (w : World L)
    (self : nat) (message : string) :
  is_trained (objects w self) = false ->
  run (SpamClassifier_predict L self message) w =
  (Raised (Exception "Model must be trained first"), w).
Proof. intros H. rewrite run_SpamClassifier_predict, H. reflexivity. Qed.

(** [POST /api/predict] while the status says "not trained". *)
Lemma predict_untrained (L : Library) (w : World L)
    (message : option string) :
  Status.is_trained (training_status w) = false ->
  run (predict L message) w =
  (Done (Error "Model not trained yet. Please train the model first.",
         400%Z), w).
Proof. intros H. unfold predict. simpl. rewrite H. reflexivity. Qed.

(** C4.  Before any successful training, [predict] fails with the "not
    trained" error whatever the message: [SpamClassifier.predict] raises
    when the object's [is_trained] is false, the API answers 400 when the
    status's [is_trained] is false, and in both cases the whole state is
    left as it was. *)
Theorem predict_before_training (L : Library) (w : World L) :
  (forall self message,
     is_trained (objects w self) = false ->
     run (SpamClassifier_predict L self message) w =
     (Raised (Exception "Model must be trained first"), w)) /\
  (forall message,
     Status.is_trained (training_status w) = false ->
     run (predict L message) w =
     (Done (Error "Model not trained yet. Please train the model first.",
            400%Z), w)).
Proof.
  split.
  - intros self message. apply SpamClassifier_predict_untrained.
  - intros message. apply predict_untrained.
Qed.

Lemma predict_before_training_witness :
  run (SpamClassifier_predict Scenario.L 0 "free money") Scenario.idle =
    (Raised (Exception "Model must be trained first"), Scenario.idle) /\
  run (predict Scenario.L (Some "free money")) Scenario.idle =
    (Done (Error "Model not trained yet. Please train the model first.",
           400%Z), Scenario.idle).
Proof.
  split.
  - apply (proj1 (predict_before_training Scenario.L Scenario.idle)).
    reflexivity.
  - apply (proj2 (predict_before_training Scenario.L Scenario.idle)).
    reflexivity.
Defined.

(** C5.  With a trained model and a non-empty list of messages, a 200
    answer of [batch_predict] carries one result per message, in the order
    of the messages, result [i] being what [predict] returns for message
    [i], and the state is unchanged; the answer is 200 whenever every
    message can be predicted.  For an empty or missing list the answer is
    the 400 input error, not an empty result. *)
Theorem batch_predict_in_order (L : Library) (w : World L)
    (messages : list string) :
  Status.is_trained (training_status w) = true ->
  messages <> [] ->
  (forall results w',
     run (batch_predict L (Some messages)) w =
       (Done (Results results, 200%Z), w') ->
     w' = w /\
     List.length results = List.length messages /\
     forall i msg,
       nth_error messages i = Some msg ->
       exists result,
         nth_error results i = Some result /\
         run (SpamClassifier_predict L (classifier w) msg) w =
           (Done result, w)) /\
  ((forall msg,
      In msg messages ->
      exists result,
        run (SpamClassifier_predict L (classifier w) msg) w =
          (Done result, w)) ->
   exists results,
     run (batch_predict L (Some messages)) w =
       (Done (Results results, 200%Z), w)) /\
  run (batch_predict L (Some [])) w =
    (Done (Error "No messages provided", 400%Z), w) /\
  run (batch_predict L None) w =
    (Done (Error "No messages provided", 400%Z), w).
Proof.
  intros Htrained Hne.
  assert (Hrun :
    run (batch_predict L (Some messages)) w =
    match run (predict_each L messages []) w with
    | (Done results, w1) => (Done (Results results, 200%Z), w1)
    | (Raised (Exception e), w1) => (Done (Error e, 500%Z), w1)
    | (Raised (SystemExit code), w1) => (Raised (SystemExit code), w1)
    | (Blocked, w1) => (Blocked, w1)
    end).
  { unfold batch_predict. simpl. rewrite Htrained. simpl.
    destruct messages as [|m ms]; [congruence|].
    rewrite (run_under L (fun p => try_except p (fun e => Ret (Error e, 500%Z))))
      by (intros C op k; reflexivity).
    destruct (run (predict_each L (m :: ms) []) w) as [[rs|[e|code]|] w1];
      reflexivity. }
  repeat split.
  - rewrite Hrun in H.
    destruct (run (predict_each L messages []) w) as [[rs|[e|code]|] w1] eqn:E;
      try discriminate H.
    injection H as _ <-. apply (run_predict_each L) in E. apply E.
  - rewrite Hrun in H.
    destruct (run (predict_each L messages []) w) as [[rs|[e|code]|] w1] eqn:E;
      try discriminate H.
    injection H as <- <-. apply (run_predict_each L) in E.
    destruct E as (_ & new & -> & Hall). simpl.
    symmetry. apply (Forall2_length Hall).
  - intros i msg Hi. rewrite Hrun in H.
    destruct (run (predict_each L messages []) w) as [[rs|[e|code]|] w1] eqn:E;
      try discriminate H.
    injection H as <- <-. apply (run_predict_each L) in E.
    destruct E as (_ & new & -> & Hall). simpl.
    clear Hrun Hne. revert i Hi.
    induction Hall as [|m r ms rs Hm Hrest IH]; intros [|i] Hi;
      try discriminate Hi; simpl in *.
    + injection Hi as <-. exists r. auto.
    + apply IH, Hi.
  - intros Hall. rewrite Hrun.
    destruct (run (predict_each L messages []) w) as [[rs|e|] w1] eqn:E;
      apply (run_predict_each L) in E; destruct E as [-> E].
    + exists rs. reflexivity.
    + exfalso. destruct E as (m & Hm & Hr).
      destruct (Hall m Hm) as (r & Hok). congruence.
    + contradiction.
  - unfold batch_predict. simpl. rewrite Htrained. reflexivity.
  - unfold batch_predict. simpl. rewrite Htrained. reflexivity.
Qed.

(** C6.  [reset] while a training run is active ([is_training] true) is
    refused with an error and changes nothing.  Otherwise it succeeds:
    every field of [training_status] has its initial value ([is_trained]
    false, [progress] 0), the global [classifier] is a fresh object without
    a model, and a [predict] that follows fails with the "not trained"
    error. *)
Theorem reset_spec (L : Library) (w : World L) :
  (Status.is_training (training_status w) = true ->
   run (reset L) w =
   (Done (Error "Cannot reset while training is in progress", 400%Z), w)) /\
  (Status.is_training (training_status w) = false ->
   exists w',
     run (reset L) w = (Done (Message "Reset successful", 200%Z), w') /\
     training_status w' = Status.initial /\
     Status.is_trained (training_status w') = false /\
     Status.progress (training_status w') = 0%Z /\
     objects w' (classifier w') = SpamClassifier_init L /\
     (forall message,
        run (predict L message) w' =
        (Done (Error "Model not trained yet. Please train the model first.",
               400%Z), w')) /\
     (forall message,
        run (SpamClassifier_predict L (classifier w') message) w' =
        (Raised (Exception "Model must be trained first"), w'))).
Proof.
  split; intros H.
  - unfold reset. simpl. rewrite H. reflexivity.
  - unfold reset. simpl. rewrite H. simpl.
    eexists. split; [reflexivity|].
    split; [reflexivity|]. split; [reflexivity|]. split; [reflexivity|].
    split; [simpl; apply update_same|].
    split; intros message.
    + apply predict_untrained. reflexivity.
    + apply SpamClassifier_predict_untrained.
      simpl. rewrite update_same. reflexivity.
Qed.

(** A run is settled by its result: the state it ends in is its own. *)
Lemma ends_as {L : Library} {A} (p : prog L A) (w : World L) (r : result A) :
  fst (run p w) = r -> run p w = (r, snd (run p w)).
Proof. intros <-. apply surjective_pairing. Qed.

Lemma spam_or_not (pred : Z) :
  (if Z.eqb pred 1 then "Spam" else "Not Spam") = "Spam" \/
  (if Z.eqb pred 1 then "Spam" else "Not Spam") = "Not Spam".
Proof. destruct (Z.eqb pred 1); auto. Qed.

(** What [classify_sms_real_time] returns, when it returns. *)
Lemma classify_sms_real_time_result (L : Library) (msg : string)
    (v : Vectorizer L) (nb : NaiveBayes L) (lr : LogReg L)
    (result : PredictionResult) :
  classify_sms_real_time L msg (Some v) (Some nb) (Some lr) = Ok result ->
  exists X nb_pred nb_preds nb_prob nb_probs lr_pred lr_preds lr_prob lr_probs,
    transform L v [preprocess_text L msg] = Ok X /\
    nb_predict L nb X = Ok (nb_pred :: nb_preds) /\
    nb_predict_proba L nb X = Ok (nb_prob :: nb_probs) /\
    lr_predict L lr X = Ok (lr_pred :: lr_preds) /\
    lr_predict_proba L lr X = Ok (lr_prob :: lr_probs) /\
    py_max nb_prob = Ok (naive_bayes_confidence result) /\
    py_max lr_prob = Ok (logistic_regression_confidence result) /\
    result =
      {| message := msg;
         naive_bayes_result :=
           if Z.eqb nb_pred 1 then "Spam" else "Not Spam";
         logistic_regression_result :=
           if Z.eqb lr_pred 1 then "Spam" else "Not Spam";
         naive_bayes_confidence := naive_bayes_confidence result;
         logistic_regression_confidence :=
           logistic_regression_confidence result |}.
Proof.
  unfold classify_sms_real_time. cbn [not_none res_bind].
  destruct (transform L v _) as [X|] eqn:EX; cbn [res_bind]; [|discriminate].
  destruct (nb_predict L nb X) as [[|nb_pred nb_preds]|] eqn:E1;
    cbn [res_bind index0]; try discriminate.
  destruct (nb_predict_proba L nb X) as [[|nb_prob nb_probs]|] eqn:E2;
    cbn [res_bind index0]; try discriminate.
  destruct (lr_predict L lr X) as [[|lr_pred lr_preds]|] eqn:E3;
    cbn [res_bind index0]; try discriminate.
  destruct (lr_predict_proba L lr X) as [[|lr_prob lr_probs]|] eqn:E4;
    cbn [res_bind index0]; try discriminate.
  destruct (py_max nb_prob) as [nb_conf|] eqn:E5; cbn [res_bind];
    [|discriminate].
  destruct (py_max lr_prob) as [lr_conf|] eqn:E6; cbn [res_bind];
    [|discriminate].
  intros [= <-]. cbn.
  exists X, nb_pred, nb_preds, nb_prob, nb_probs,
    lr_pred, lr_preds, lr_prob, lr_probs.
  repeat split; assumption.
Qed.

(** C10.  After a successful training run, every result [predict] returns
    has the raw input string as its [message], each of its two labels is
    'Spam' or 'Not Spam', and each of its two confidences is Python's
    [max] of the first row of the class probabilities of the classifier
    concerned: an element of that row that no element exceeds.  The call
    leaves the state as it is, and it does return a result whenever the
    library calls it makes return (one prediction and one non-empty row of
    probabilities from each classifier). *)
Theorem predict_result (L : Library) (w0 w : World L) (self : nat)
    (accuracies : Q * Q) (msg : string) :
  run (SpamClassifier_train L self) w0 = (Done accuracies, w) ->
  exists v nb lr,
    objects w self =
      {| vectorizer := Some v; nb_classifier := Some nb;
         lr_classifier := Some lr; is_trained := true |} /\
    (forall result w',
       run (SpamClassifier_predict L self msg) w = (Done result, w') ->
       w' = w /\
       message result = msg /\
       (naive_bayes_result result = "Spam" \/
        naive_bayes_result result = "Not Spam") /\
       (logistic_regression_result result = "Spam" \/
        logistic_regression_result result = "Not Spam") /\
       exists X nb_prob nb_probs lr_prob lr_probs,
         transform L v [preprocess_text L msg] = Ok X /\
         nb_predict_proba L nb X = Ok (nb_prob :: nb_probs) /\
         lr_predict_proba L lr X = Ok (lr_prob :: lr_probs) /\
         py_max nb_prob = Ok (naive_bayes_confidence result) /\
         py_max lr_prob = Ok (logistic_regression_confidence result) /\
         In (naive_bayes_confidence result) nb_prob /\
         (forall q, In q nb_prob -> (q <= naive_bayes_confidence result)%Q) /\
         In (logistic_regression_confidence result) lr_prob /\
         (forall q, In q lr_prob ->
                    (q <= logistic_regression_confidence result)%Q)) /\
    (forall X nb_pred nb_preds nb_p nb_prob nb_probs
            lr_pred lr_preds lr_p lr_prob lr_probs,
       transform L v [preprocess_text L msg] = Ok X ->
       nb_predict L nb X = Ok (nb_pred :: nb_preds) ->
       nb_predict_proba L nb X = Ok ((nb_p :: nb_prob) :: nb_probs) ->
       lr_predict L lr X = Ok (lr_pred :: lr_preds) ->
       lr_predict_proba L lr X = Ok ((lr_p :: lr_prob) :: lr_probs) ->
       exists result,
         run (SpamClassifier_predict L self msg) w = (Done result, w)).
Proof.
  intros Htrain.
  destruct (train_run L w0 w self _ Htrain) as [_ (v & nb & lr & Ho)].
  exists v, nb, lr. split; [exact Ho|]. split.
  - intros result w' H.
    rewrite run_SpamClassifier_predict, Ho in H.
    cbn [negb is_trained vectorizer nb_classifier lr_classifier] in H.
    destruct (classify_sms_real_time L msg (Some v) (Some nb) (Some lr))
      as [r|e] eqn:E; [|discriminate H].
    injection H as -> <-.
    destruct (classify_sms_real_time_result L msg v nb lr result E)
      as (X & nb_pred & nb_preds & nb_prob & nb_probs & lr_pred & lr_preds &
          lr_prob & lr_probs & EX & E1 & E2 & E3 & E4 & E5 & E6 & Er).
    split; [reflexivity|].
    split; [rewrite Er; reflexivity|].
    split; [rewrite Er; apply spam_or_not|].
    split; [rewrite Er; apply spam_or_not|].
    exists X, nb_prob, nb_probs, lr_prob, lr_probs.
    destruct (py_max_spec _ _ E5) as [H5 H5'].
    destruct (py_max_spec _ _ E6) as [H6 H6'].
    repeat split; assumption.
  - intros X nb_pred nb_preds nb_p nb_prob nb_probs
      lr_pred lr_preds lr_p lr_prob lr_probs EX E1 E2 E3 E4.
    rewrite run_SpamClassifier_predict, Ho.
    cbn [negb is_trained vectorizer nb_classifier lr_classifier].
    unfold classify_sms_real_time. cbn [not_none res_bind].
    rewrite EX. cbn [res_bind]. rewrite E1. cbn [res_bind index0].
    rewrite E2. cbn [res_bind index0]. rewrite E3. cbn [res_bind index0].
    rewrite E4. cbn [res_bind index0 py_max].
    eexists. reflexivity.
Qed.

Lemma predict_result_witness :
  run (SpamClassifier_train Scenario.L 0) Scenario.idle =
    (Done (5 # 5, 5 # 5)%Q, Scenario.trained) /\
  exists result,
    run (SpamClassifier_predict Scenario.L 0 "FREE money!!") Scenario.trained =
      (Done result, Scenario.trained) /\
    message result = "FREE money!!" /\
    (naive_bayes_result result = "Spam" \/
     naive_bayes_result result = "Not Spam").
Proof.
  assert (Htrain :
    run (SpamClassifier_train Scenario.L 0) Scenario.idle =
      (Done (5 # 5, 5 # 5)%Q, Scenario.trained)).
  { unfold Scenario.trained. apply ends_as. vm_compute. reflexivity. }
  split; [exact Htrain|].
  destruct (predict_result Scenario.L Scenario.idle Scenario.trained 0 _
              "FREE money!!" Htrain) as (v & nb & lr & Ho & Hsound & Htotal).
  assert (Hrun : exists result,
    run (SpamClassifier_predict Scenario.L 0 "FREE money!!") Scenario.trained =
      (Done result, Scenario.trained)).
  { rewrite run_SpamClassifier_predict. eexists.
    apply (f_equal (fun r => (r, Scenario.trained))).
    vm_compute. reflexivity. }
  destruct Hrun as [result Hrun]. exists result.
  split; [exact Hrun|].
  destruct (Hsound result Scenario.trained Hrun) as (_ & Hm & Hnb & _).
  split; assumption.
Defined.

Lemma batch_predict_in_order_witness :
  exists results,
    run (batch_predict Scenario.L (Some ["free money"; "see you at lunch"]))
      Scenario.completed =
      (Done (Results results, 200%Z), Scenario.completed) /\
    List.length results = 2.
Proof.
  assert (H1 : Status.is_trained (training_status Scenario.completed) = true)
    by (vm_compute; reflexivity).
  assert (H2 : ["free money"; "see you at lunch"] <> []) by discriminate.
  destruct (batch_predict_in_order Scenario.L Scenario.completed _ H1 H2)
    as (Hsound & Htotal & _).
  destruct Htotal as [results Hr].
  { intros msg Hin. rewrite run_SpamClassifier_predict.
    destruct Hin as [<-|[<-|[]]]; eexists;
      apply (f_equal (fun r => (r, Scenario.completed)));
      vm_compute; reflexivity. }
  exists results. split; [exact Hr|]. apply (Hsound results _ Hr).
Defined.

Lemma reset_spec_witness :
  run (reset Scenario.L) Scenario.busy =
    (Done (Error "Cannot reset while training is in progress", 400%Z),
     Scenario.busy) /\
  exists w',
    run (reset Scenario.L) Scenario.completed =
      (Done (Message "Reset successful", 200%Z), w') /\
    training_status w' = Status.initial.
Proof.
  split.
  - apply (proj1 (reset_spec Scenario.L Scenario.busy)). reflexivity.
  - destruct (proj2 (reset_spec Scenario.L Scenario.completed))
      as (w' & Hr & Hs & _).
    + vm_compute. reflexivity.
    + exists w'. split; assumption.
Defined.

Lemma thread_progress_witness :
  Sorted Z.le
    (skipn 4
       (progress_trace (observe (train_model_thread Scenario.L)
                          Scenario.idle))).
Proof.
  assert (H : training_lock Scenario.idle = false) by reflexivity.
  apply (thread_progress Scenario.L Scenario.idle H).
Defined.

(** C2, as amended.  A run of [train] that fails with an exception
    leaves [is_trained] as it was and leaves a prefix of the fields
    (vectorizer, nb_classifier, lr_classifier) replaced by objects of this
    run, the fields after it being as before: the model is installed
    field by field while training proceeds.  The model is exactly as it
    was when the run fails while the data is loaded or preprocessed.  The
    failed run changes no other object, nor [training_status], nor the
    global [classifier]. *)
Theorem train_failure_frame (L : Library) (w w' : World L) (self : nat)
    (e : exn) :
  run (SpamClassifier_train L self) w = (Raised e, w') ->
  let o := objects w self in
  let o' := objects w' self in
  is_trained o' = is_trained o /\
  (o' = o \/
   (exists v, o' = set_vectorizer (Some v) o) \/
   (exists v nb,
      o' = set_nb_classifier (Some nb) (set_vectorizer (Some v) o)) \/
   (exists v nb lr,
      o' = set_lr_classifier (Some lr)
             (set_nb_classifier (Some nb) (set_vectorizer (Some v) o)))) /\
  ((forall df, dataset w = Rows df ->
      exists e', apply_preprocess_text L (map snd df) = Raise e') ->
   o' = o) /\
  (forall r, r <> self -> objects w' r = objects w r) /\
  training_status w' = training_status w /\
  classifier w' = classifier w.
Proof.
  intros H. cbv zeta.
  destruct (train_run L w w' self _ H) as [Ha (H1 & H2 & H3)].
  destruct Ha as (G1 & G2 & G3 & _).
  repeat split; assumption.
Qed.

Lemma train_failure_frame_witness :
  exists e w',
    run (SpamClassifier_train Scenario.L 0) Scenario.trained_then_lopsided =
      (Raised e, w') /\
    is_trained (objects w' 0) =
      is_trained (objects Scenario.trained_then_lopsided 0) /\
    training_status w' = training_status Scenario.trained_then_lopsided.
Proof.
  assert (H : run (SpamClassifier_train Scenario.L 0)
                Scenario.trained_then_lopsided =
              (Raised (Exception "The least populated class in y has only 1 member, which is too few. The minimum number of groups for any class cannot be less than 2."),
               snd (run (SpamClassifier_train Scenario.L 0)
                      Scenario.trained_then_lopsided))).
  { apply ends_as. vm_compute. reflexivity. }
  eexists. eexists. split; [exact H|].
  destruct (train_failure_frame _ _ _ _ _ H) as (H1 & _ & _ & _ & H5 & _).
  split; assumption.
Defined.

(** C2, the claim as stated fails.  (1) A classifier holds a trained
    model; the dataset file now has a single spam message, so the
    stratified split of the next [train()] raises: after the failed run
    the classifier's vectorizer is another one, while both classifiers
    and [is_trained] are as before.  (2) Two training threads were
    started from the idle state; the first has finished and the model of
    its run is active; the second has just assigned its new vectorizer: a
    [predict] request handled at this point finds the new, not yet
    fitted, vectorizer next to the classifiers of the first run, and
    answers 500. *)
Lemma train_install_not_atomic :
  (exists e w',
     run (SpamClassifier_train Scenario.L 0) Scenario.trained_then_lopsided =
       (Raised e, w') /\
     is_trained (objects Scenario.trained_then_lopsided 0) = true /\
     vectorizer (objects w' 0) <>
       vectorizer (objects Scenario.trained_then_lopsided 0) /\
     nb_classifier (objects w' 0) =
       nb_classifier (objects Scenario.trained_then_lopsided 0) /\
     lr_classifier (objects w' 0) =
       lr_classifier (objects Scenario.trained_then_lopsided 0) /\
     is_trained (objects w' 0) = true) /\
  (Scenario.seen (response 2) Scenario.predicted =
     Some (Some (Error "The TF-IDF vectorizer is not fitted", 500%Z)) /\
   Scenario.seen (fun w => vectorizer (objects w 0)) Scenario.predicted =
     Some (Some None) /\
   Scenario.seen (fun w => vectorizer (objects w 0)) Scenario.first_done <>
     Some (Some None) /\
   Scenario.seen (fun w => nb_classifier (objects w 0)) Scenario.predicted =
     Scenario.seen (fun w => nb_classifier (objects w 0)) Scenario.first_done /\
   Scenario.seen (fun w => lr_classifier (objects w 0)) Scenario.predicted =
     Scenario.seen (fun w => lr_classifier (objects w 0)) Scenario.first_done /\
   Scenario.seen (fun w => Status.is_trained (training_status w))
     Scenario.second_midway = Some true).
Proof.
  split.
  - eexists. eexists. split; [apply ends_as; vm_compute; reflexivity|].
    repeat split; try (vm_compute; reflexivity).
    vm_compute. discriminate.
  - repeat split; try (vm_compute; reflexivity).
    vm_compute. discriminate.
Qed.

(** C3 (the code departs from the claim).  Two [POST /api/train]
    requests arrive in the idle state.  The first handler reads
    [is_training], finds it false and starts a thread; before that thread
    has set [is_training], the second handler reads it, finds it false as
    well and starts another.  Both requests are answered "Training
    started", and after each thread has gone through its [with
    training_lock] block both are running, with the lock free: the lock
    guards the writes of the thread, not the check of the handler. *)
Theorem two_training_threads_run :
  Scenario.seen (response 0) Scenario.both_started =
    Some (Some (Message "Training started", 200%Z)) /\
  Scenario.seen (response 1) Scenario.both_started =
    Some (Some (Message "Training started", 200%Z)) /\
  Scenario.seen (fun w => map running (threads w)) Scenario.both_started =
    Some [false; false; false; true; true] /\
  Scenario.seen (fun w => Status.is_training (training_status w))
    Scenario.both_started = Some true /\
  Scenario.seen training_lock Scenario.both_started = Some false.
Proof. repeat split; vm_compute; reflexivity. Qed.


(** C7. Text normalisation is idempotent: normalising text that was
    already normalised gives the same text back, for every input and every
    stop word list; and it is deterministic: the result depends on the
    input alone, so equal inputs give equal outputs. *)
Theorem preprocess_text_idempotent (L : Library) (x : string) :
  preprocess_text L (preprocess_text L x) = preprocess_text L x /\
  (forall y : string, y = x -> preprocess_text L y = preprocess_text L x).
Proof.
  split; [|intros y ->; reflexivity].
  unfold preprocess_text.
  rewrite !TextFacts.preprocess_text_tokens.
  destruct (TextFacts.tokens_spec (stop_words L) x) as (Hw & Hc & Hs).
  rewrite (TextFacts.tokens_join (stop_words L) _ Hw Hc Hs).
  reflexivity.
Qed.

Lemma preprocess_text_idempotent_witness :
  preprocess_text Bag.library
    (preprocess_text Bag.library "I cannot; gimme 5, we're gonna go") =
  preprocess_text Bag.library "I cannot; gimme 5, we're gonna go"
  /\ preprocess_text Bag.library "I cannot; gimme 5, we're gonna go" =
     "gim were gon na go".
Proof.
  split.
  - apply (proj2 (preprocess_text_idempotent Bag.library
                    (preprocess_text Bag.library
                       "I cannot; gimme 5, we're gonna go"))).
    apply (proj1 (preprocess_text_idempotent Bag.library
                    "I cannot; gimme 5, we're gonna go")).
  - reflexivity.
Defined.

(** C8. For every input, the output of [preprocess_text] is the join, with
    single spaces, of its own words; each word is a non-empty run of the
    letters a-z and none is a stop word.  So the output has no leading,
    trailing or doubled white space, and every character of it is a
    lower-case letter or a space: no digit, punctuation or symbol.  The
    empty string gives the empty string, and the function, being total,
    returns for every input. *)
Theorem preprocess_text_shape (L : Library) (x : string) :
  let out := preprocess_text L x in
  out = Text.join " " (Text.split out) /\
  Forall (fun w => Text.is_word w = true) (Text.split out) /\
  Forall (fun w => Text.mem w (stop_words L) = false) (Text.split out) /\
  Text.all Text.is_lower_or_space out = true /\
  Text.strip out = out /\
  preprocess_text L "" = "".
Proof.
  cbv zeta. unfold preprocess_text.
  rewrite TextFacts.preprocess_text_tokens.
  destruct (TextFacts.tokens_spec (stop_words L) x) as (Hw & Hc & Hs).
  rewrite (TextFacts.split_join Text.is_ascii_lower _ Hw).
  repeat split.
  - eapply Forall_impl; [|exact Hw]. intros w. apply TextFacts.word_is_word.
  - exact Hs.
  - apply TextFacts.join_chars, Hw.
  - apply TextFacts.strip_join, Hw.
Qed.
